(** * Stacks backend: label correlation, resource joins, status aggregation
      and spec conversion

    A shallow embedding of [pkg/interfaces/utils.go] and of the two listings
    of the [backend] package, followed by the properties established about
    them.  Go maps are finite maps ([gmap]); a map that may be [nil] is an
    [option] of a finite map; a Go [error] is [None] ([nil]) or a message. *)

From stdpp Require Import gmap strings list fin_maps.

Local Open Scope string_scope.

(** ** Go values *)

(** The [error] interface, observed through [Error()]: [None] is [nil]. *)
Abbreviation error := (option string).

(** A map value that can be [nil].  Reading a [nil] map finds nothing;
    writing to it panics. *)
Abbreviation GoMap K V := (option (gmap K V)).

(** The zero value of a Go type. *)
Class Zero (A : Type) := zero : A.
Global Hint Mode Zero ! : typeclass_instances.

Global Instance string_zero : Zero string := "".
Global Instance list_zero {A} : Zero (list A) := [].
Global Instance option_zero {A} : Zero (option A) := None.
Global Instance Z_zero : Zero Z := 0%Z.
Global Instance N_zero : Zero N := 0%N.

(** A call either returns or panics. *)
Inductive outcome (A : Type) : Type :=
| Returns (a : A)
| Panics (msg : string).
Arguments Returns {A} a.
Arguments Panics {A} msg.

Definition completes {A} (o : outcome A) : Prop :=
  match o with Returns _ => True | Panics _ => False end.

(** [m[k]] with the comma-ok idiom, on a map that may be [nil]. *)
Definition index {V} (m : GoMap string V) (k : string) : option V :=
  match m with
  | Some m' => m' !! k
  | None => None
  end.

(** [fmt.Sprintf("%+v", ids)] for a slice of strings: [[a b c]]. *)
Definition fmt_strings (ids : list string) : string :=
  "[" +:+ String.concat " " ids +:+ "]".

(** ** [github.com/docker/docker/api/types/filters] *)

Module filters.

Record KeyValuePair := Arg { Key : string; Value : string }.

(** [Args] is a bag of values per field name
    ([map[string]map[string]bool]). *)
Abbreviation Args := (gmap string (gset string)).

Definition Add (args : Args) (kv : KeyValuePair) : Args :=
  <[Key kv := {[Value kv]} ∪ default ∅ (args !! Key kv)]> args.

Definition NewArgs (initialArgs : list KeyValuePair) : Args :=
  foldl Add ∅ initialArgs.

Definition Len (args : Args) : nat := size args.

Definition Get (args : Args) (key : string) : list string :=
  elements (default ∅ (args !! key)).

End filters.

(** ** Package [interfaces]: [utils.go] *)

Module interfaces.
Section WithStackLabel.

(** The stack-label key, a constant of the package declared outside
    [utils.go]. *)
Variable StackLabel : string.

Definition StackLabelFilter (stackID : string) : filters.Args :=
  if decide (stackID = "") then filters.NewArgs []
  else filters.NewArgs
         [filters.Arg "label" (StackLabel +:+ "=" +:+ stackID)].

End WithStackLabel.
End interfaces.


(** ** [github.com/docker/docker/api/types/swarm]

    Only the fields the backend reads are modelled. *)

Module swarm.

(** [TaskState] is a string type. *)
Abbreviation TaskState := string.
Definition TaskStateRunning : TaskState := "running".
Definition TaskStateFailed : TaskState := "failed".
Definition TaskStatePending : TaskState := "pending".
Definition TaskStateShutdown : TaskState := "shutdown".

Record Annotations := { Name : string; Labels : GoMap string string }.

Record TaskStatus := { State : TaskState }.

(** [Task] embeds [Annotations], so [task.Labels] is [Labels (TaskAnnotations task)]. *)
Record Task := {
  TaskID : string;
  TaskAnnotations : Annotations;
  ServiceID : string;
  Status : TaskStatus
}.

(** [Replicas] is a [*uint64]. *)
Record ReplicatedService := { Replicas : option N }.
Record GlobalService := { }.

Record ServiceMode := {
  Replicated : option ReplicatedService;
  Global : option GlobalService
}.

Record ServiceSpec := { ServiceAnnotations : Annotations; Mode : ServiceMode }.
Record Service := { ID : string; Spec : ServiceSpec }.

Record SecretSpec := { SecretAnnotations : Annotations }.
Record Secret := { SecretID : string; SecretSpec_ : SecretSpec }.

Record ConfigSpec := { ConfigAnnotations : Annotations }.
Record Config := { ConfigID : string; ConfigSpec_ : ConfigSpec }.

Record Node := { NodeID : string }.

End swarm.

(** ** Package [types]: the stack as stored and reported

    Of [types.Stack] the fields touched by status aggregation are modelled:
    [ID], [Resources] and [Status].  Maps are values here: no two stacks
    are taken to share one [ServicesStatus] map. *)

Module types.

Inductive ResourceKind := KindUnset | KindSwarmService | KindSwarmSecret | KindSwarmConfig.

Record StackResource := { ResourceID : string; Kind : ResourceKind }.

Record StackResources := {
  Services : GoMap string StackResource;
  Secrets : GoMap string StackResource;
  Configs : GoMap string StackResource
}.

(** [CurrentTasks] receives the [int] variable [currentTasks];
    [DesiredTasks] a [uint64]. *)
Record ServiceStatus := { CurrentTasks : Z; DesiredTasks : N }.

Record StackStatus := { ServicesStatus : GoMap string ServiceStatus }.

Record Stack := { ID : string; Resources : StackResources; Status : StackStatus }.

Global Instance StackResources_zero : Zero StackResources :=
  {| Services := None; Secrets := None; Configs := None |}.
Global Instance StackStatus_zero : Zero StackStatus := {| ServicesStatus := None |}.
Global Instance Stack_zero : Zero Stack :=
  {| ID := ""; Resources := zero; Status := zero |}.

End types.

(** ** [interfaces.SwarmResourceBackend]

    The listing calls take an options struct whose only field set is
    [Filters]; each returns the resources and an [error]. *)

Record SwarmResourceBackend := {
  GetTasks : filters.Args → list swarm.Task * error;
  GetServices : filters.Args → list swarm.Service * error;
  GetSecrets : filters.Args → list swarm.Secret * error;
  GetConfigs : filters.Args → list swarm.Config * error;
  GetNodes : filters.Args → list swarm.Node * error
}.

(** ** Package [backend], second listing: joins and status aggregation *)

Module backend.
Section WithStackLabel.

Variable StackLabel : string.

Definition stackLabelFilters (stackIDs : list string) : filters.Args :=
  match stackIDs with
  | [stackID] => interfaces.StackLabelFilter StackLabel stackID
  | _ => filters.NewArgs [filters.Arg "label" StackLabel]
  end.

(** [idsmap := make(map[string][]R)] followed by the loop binding every
    requested ID to an empty slice. *)
Definition newIDsMap {R} (stackIDs : list string) : gmap string (list R) :=
  foldl (λ idsmap stackID, <[stackID := []]> idsmap) ∅ stackIDs.

(** The grouping loop shared, verbatim up to the resource type, the label
    accessor and the message, by the four joins.  A resource without the
    stack label ends the loop: the function returns [idsmap] as it stands
    together with the error. *)
Fixpoint groupByStack {R} (labels : R → GoMap string string) (msg : string)
    (resources : list R) (idsmap : gmap string (list R))
    : gmap string (list R) * error :=
  match resources with
  | [] => (idsmap, None)
  | r :: rest =>
      match index (labels r) StackLabel with
      | None => (idsmap, Some msg)
      | Some stackID =>
          match idsmap !! stackID with
          | Some stackRs =>
              groupByStack labels msg rest (<[stackID := (stackRs ++ [r])%list]> idsmap)
          | None => groupByStack labels msg rest idsmap
          end
      end
  end.

(** Where each kind of resource keeps its labels. *)
Definition taskLabels (task : swarm.Task) : GoMap string string :=
  swarm.Labels (swarm.TaskAnnotations task).
Definition serviceLabels (service : swarm.Service) : GoMap string string :=
  swarm.Labels (swarm.ServiceAnnotations (swarm.Spec service)).
Definition secretLabels (secret : swarm.Secret) : GoMap string string :=
  swarm.Labels (swarm.SecretAnnotations (swarm.SecretSpec_ secret)).
Definition configLabels (config : swarm.Config) : GoMap string string :=
  swarm.Labels (swarm.ConfigAnnotations (swarm.ConfigSpec_ config)).

Definition withMap {R} (p : gmap string (list R) * error)
    : GoMap string (list R) * error :=
  (Some p.1, p.2).

Definition getSwarmServices (b : SwarmResourceBackend) (stackIDs : list string)
    : GoMap string (list swarm.Service) * error :=
  match GetServices b (stackLabelFilters stackIDs) with
  | (_, Some err) => (None, Some ("unable to list services: " +:+ err))
  | (services, None) =>
      withMap (groupByStack serviceLabels
                 "internal error: found service with no stack label"
                 services (newIDsMap stackIDs))
  end.

Definition getSwarmConfigs (b : SwarmResourceBackend) (stackIDs : list string)
    : GoMap string (list swarm.Config) * error :=
  match GetConfigs b (stackLabelFilters stackIDs) with
  | (_, Some err) => (None, Some ("unable to list configs: " +:+ err))
  | (configs, None) =>
      withMap (groupByStack configLabels
                 "internal error: found service with no stack label"
                 configs (newIDsMap stackIDs))
  end.

Definition getSwarmSecrets (b : SwarmResourceBackend) (stackIDs : list string)
    : GoMap string (list swarm.Secret) * error :=
  match GetSecrets b (stackLabelFilters stackIDs) with
  | (_, Some err) => (None, Some ("unable to list secrets: " +:+ err))
  | (secrets, None) =>
      withMap (groupByStack secretLabels
                 "internal error: found secret with no stack label"
                 secrets (newIDsMap stackIDs))
  end.

Definition getSwarmTasks (b : SwarmResourceBackend) (stackIDs : list string)
    : GoMap string (list swarm.Task) * error :=
  match GetTasks b (stackLabelFilters stackIDs) with
  | (_, Some err) =>
      (None, Some ("unable to get tasks for stacks " +:+ fmt_strings stackIDs
                   +:+ ": " +:+ err))
  | (tasks, None) =>
      withMap (groupByStack taskLabels
                 "internal error: found task with no stack label"
                 tasks (newIDsMap stackIDs))
  end.

Definition getNodeCount (b : SwarmResourceBackend) : N * error :=
  match GetNodes b (filters.NewArgs []) with
  | (_, Some err) => (0%N, Some ("unable to list nodes: " +:+ err))
  | (nodes, None) => (N.of_nat (length nodes), None)
  end.

(** *** Resource inventory *)

Definition stackServices (services : list swarm.Service)
    : gmap string types.StackResource :=
  foldl (λ res service,
           <[swarm.Name (swarm.ServiceAnnotations (swarm.Spec service)) :=
               {| types.ResourceID := swarm.ID service;
                  types.Kind := types.KindSwarmService |}]> res)
        ∅ services.

Definition stackSecrets (secrets : list swarm.Secret)
    : gmap string types.StackResource :=
  foldl (λ res secret,
           <[swarm.Name (swarm.SecretAnnotations (swarm.SecretSpec_ secret)) :=
               {| types.ResourceID := swarm.SecretID secret;
                  types.Kind := types.KindSwarmSecret |}]> res)
        ∅ secrets.

Definition stackConfigs (configs : list swarm.Config)
    : gmap string types.StackResource :=
  foldl (λ res config,
           <[swarm.Name (swarm.ConfigAnnotations (swarm.ConfigSpec_ config)) :=
               {| types.ResourceID := swarm.ConfigID config;
                  types.Kind := types.KindSwarmConfig |}]> res)
        ∅ configs.

(** *** [populateStackStatus] *)

(** [int] is 64 bits wide and wraps around. *)
Definition wrap_int (z : Z) : Z := ((z + 2 ^ 63) `mod` 2 ^ 64 - 2 ^ 63)%Z.

(** [desiredTasks]: [*service.Spec.Mode.Replicated.Replicas] when
    [Replicated] is not [nil], else [numNodes].  Dereferencing a [nil]
    [Replicas] panics with the runtime's memory error. *)
Definition desiredTasksOf (service : swarm.Service) (numNodes : N) : outcome N :=
  match swarm.Replicated (swarm.Mode (swarm.Spec service)) with
  | Some replicated =>
      match swarm.Replicas replicated with
      | Some replicas => Returns replicas
      | None => Panics "runtime error: invalid memory address or nil pointer dereference"
      end
  | None => Returns numNodes
  end.

(** The loop over [tasks].  Its body increments [curentTasks], which is
    not the variable [currentTasks] declared before the loop and is not
    declared in the function: it is threaded as package-level state of
    type [int].  The loop leaves [currentTasks] as it was. *)
Definition countTasks (service : swarm.Service) (tasks : list swarm.Task)
    (curentTasks : Z) : Z :=
  foldl (λ curentTasks task,
           if decide (swarm.ServiceID task = swarm.ID service
                      ∧ swarm.State (swarm.Status task) = swarm.TaskStateRunning)
           then wrap_int (curentTasks + 1)
           else curentTasks)
        curentTasks tasks.

Definition setServiceStatus (stack : types.Stack)
    (statuses : gmap string types.ServiceStatus) : types.Stack :=
  {| types.ID := types.ID stack;
     types.Resources := types.Resources stack;
     types.Status := {| types.ServicesStatus := Some statuses |} |}.

(** The loop over [services]; the write into a [nil] [ServicesStatus]
    panics. *)
Fixpoint servicesLoop (services : list swarm.Service) (tasks : list swarm.Task)
    (numNodes : N) (stack : types.Stack) (curentTasks : Z)
    : outcome (types.Stack * Z) :=
  match services with
  | [] => Returns (stack, curentTasks)
  | service :: rest =>
      match desiredTasksOf service numNodes with
      | Panics msg => Panics msg
      | Returns desiredTasks =>
          let currentTasks := 0%Z in
          let curentTasks := countTasks service tasks curentTasks in
          match types.ServicesStatus (types.Status stack) with
          | None => Panics "assignment to entry in nil map"
          | Some statuses =>
              servicesLoop rest tasks numNodes
                (setServiceStatus stack
                   (<[swarm.Name (swarm.ServiceAnnotations (swarm.Spec service)) :=
                        {| types.CurrentTasks := currentTasks;
                           types.DesiredTasks := desiredTasks |}]> statuses))
                curentTasks
          end
      end
  end.

(** The function updates [*stack] in place and returns an [error] that is
    always [nil]; here it returns the updated stack with it. *)
Definition populateStackStatus (stack : types.Stack) (tasks : list swarm.Task)
    (services : list swarm.Service) (secrets : list swarm.Secret)
    (configs : list swarm.Config) (numNodes : N) (curentTasks : Z)
    : outcome (types.Stack * error * Z) :=
  let stack :=
    {| types.ID := types.ID stack;
       types.Resources :=
         {| types.Services := Some (stackServices services);
            types.Secrets := Some (stackSecrets secrets);
            types.Configs := Some (stackConfigs configs) |};
       types.Status := types.Status stack |} in
  match servicesLoop services tasks numNodes stack curentTasks with
  | Panics msg => Panics msg
  | Returns (stack, curentTasks) => Returns (stack, None, curentTasks)
  end.

(** *** [getStackStatuses] *)

(** The loop over [stacks].  Each iteration works on a copy of the stack
    and appends it to [newStacks]. *)
Fixpoint stacksLoop (tasks : GoMap string (list swarm.Task))
    (services : GoMap string (list swarm.Service))
    (secrets : GoMap string (list swarm.Secret))
    (configs : GoMap string (list swarm.Config))
    (nodeCount : N) (stacks newStacks : list types.Stack) (curentTasks : Z)
    : outcome (list types.Stack * error * Z) :=
  match stacks with
  | [] => Returns (newStacks, None, curentTasks)
  | stack :: rest =>
      match index tasks (types.ID stack) with
      | None => Panics "internal error: task map does not contain expected ID"
      | Some stackTasks =>
      match index services (types.ID stack) with
      | None => Panics "internal error: services map does not contain expected ID"
      | Some stackServices =>
      match index secrets (types.ID stack) with
      | None => Panics "internal error: services map does not contain expected ID"
      | Some stackSecrets =>
      match index configs (types.ID stack) with
      | None => Panics "internal error: configs map does not contain expected ID"
      | Some stackConfigs =>
      match populateStackStatus stack stackTasks stackServices stackSecrets
              stackConfigs nodeCount curentTasks with
      | Panics msg => Panics msg
      | Returns (stack, Some err, curentTasks) =>
          Returns ([], Some ("unable to populate stack status for stack "
                             +:+ types.ID stack +:+ ": " +:+ err), curentTasks)
      | Returns (stack, None, curentTasks) =>
          stacksLoop tasks services secrets configs nodeCount rest
            (newStacks ++ [stack])%list curentTasks
      end end end end end
  end.

Definition getStackStatuses (b : SwarmResourceBackend) (stacks : list types.Stack)
    (curentTasks : Z) : outcome (list types.Stack * error * Z) :=
  match stacks with
  | [] => Returns ([], None, curentTasks)
  | _ =>
      let stackIDs := types.ID <$> stacks in
      match getSwarmTasks b stackIDs with
      | (_, Some err) =>
          Returns ([], Some ("unable to get swarm tasks: " +:+ err), curentTasks)
      | (tasks, None) =>
      match getSwarmServices b stackIDs with
      | (_, Some err) =>
          Returns ([], Some ("unable to get swarm services: " +:+ err), curentTasks)
      | (services, None) =>
      match getSwarmSecrets b stackIDs with
      | (_, Some err) =>
          Returns ([], Some ("unable to get swarm secrets: " +:+ err), curentTasks)
      | (secrets, None) =>
      match getSwarmConfigs b stackIDs with
      | (_, Some err) =>
          Returns ([], Some ("unable to get swarm secrets: " +:+ err), curentTasks)
      | (configs, None) =>
      match getNodeCount b with
      | (_, Some err) =>
          Returns ([], Some ("unable to get nodes: " +:+ err), curentTasks)
      | (nodeCount, None) =>
          (* newStacks := make([]types.Stack, len(stacks)) *)
          let newStacks := replicate (length stacks) (zero : types.Stack) in
          stacksLoop tasks services secrets configs nodeCount stacks newStacks
            curentTasks
      end end end end end
  end.

End WithStackLabel.

(** *** Spec conversion *)

Section Conversion.

(** The compose-side and swarm-side collections that the conversion only
    passes along, and the namespace, are types of packages outside the
    listing. *)
Context {ServiceNetworkConfig ConfigObjs SecretObjs NetworkObjs : Type}.
Context {Namespace SwarmServices SwarmConfigs SwarmSecrets NetworkCreates
         ExternalNetworks SubstContext : Type}.
Context `{!Zero SwarmServices, !Zero SwarmConfigs, !Zero SwarmSecrets,
          !Zero NetworkCreates}.

(** [composetypes.ServiceConfig]: [Networks] is a map keyed by network name. *)
Record ServiceConfig := {
  ServiceName : string;
  Networks : gmap string ServiceNetworkConfig
}.

Record Metadata := { MetaName : string; MetaLabels : GoMap string string }.

(** [types.StackSpec] *)
Record StackSpec := {
  SpecMetadata : Metadata;
  SpecServices : list ServiceConfig;
  SpecConfigs : ConfigObjs;
  SpecSecrets : SecretObjs;
  SpecNetworks : NetworkObjs
}.

(** [interfaces.SwarmStackSpec] *)
Record SwarmStackSpec := {
  Annotations : swarm.Annotations;
  SwarmServices_ : SwarmServices;
  SwarmConfigs_ : SwarmConfigs;
  SwarmSecrets_ : SwarmSecrets;
  SwarmNetworks_ : NetworkCreates
}.

Global Instance Annotations_zero : Zero swarm.Annotations :=
  {| swarm.Name := ""; swarm.Labels := None |}.
Global Instance SwarmStackSpec_zero : Zero SwarmStackSpec :=
  {| Annotations := zero; SwarmServices_ := zero; SwarmConfigs_ := zero;
     SwarmSecrets_ := zero; SwarmNetworks_ := zero |}.

(** Modelled from the spec: the stages of packages [substitution] and
    [convert], which the listing calls but does not contain.  Each is a
    function of its arguments; [DoSubstitution] also reads the current
    resolution context, and [Services] the resource backend it is handed.
    [Networks] returns a second value that the caller discards. *)
Variable DoSubstitution : SubstContext → StackSpec → StackSpec * error.
Variable NewNamespace : string → Namespace.
Variable convertServices :
  Namespace → StackSpec → SwarmResourceBackend → SwarmServices * error.
Variable convertConfigs : Namespace → ConfigObjs → SwarmConfigs * error.
Variable convertSecrets : Namespace → SecretObjs → SwarmSecrets * error.
Variable convertNetworks :
  Namespace → NetworkObjs → gset string → NetworkCreates * ExternalNetworks.

(** [getServicesDeclaredNetworks]: the inner loop ranges over the keys of
    [serviceConfig.Networks]. *)
Definition getServicesDeclaredNetworks (serviceConfigs : list ServiceConfig)
    : gset string :=
  foldl (λ serviceNetworks serviceConfig,
           if decide (size (Networks serviceConfig) = 0)
           then {["default"]} ∪ serviceNetworks
           else foldl (λ serviceNetworks network, {[network]} ∪ serviceNetworks)
                      serviceNetworks
                      (map_to_list (Networks serviceConfig)).*1)
        ∅ serviceConfigs.

(** Calls into the stage packages are recorded, in order, in a log. *)
Inductive stage :=
| Substitution | ServiceConversion | ConfigConversion | SecretConversion
| NetworkConversion.

Definition traced (A : Type) : Type := list stage → A * list stage.

Global Instance traced_ret : MRet traced := λ A a log, (a, log).
Global Instance traced_bind : MBind traced :=
  λ A B f m log, let '(a, log) := m log in f a log.

Definition call {A} (s : stage) (result : A) : traced A :=
  λ log, (result, (log ++ [s])%list).

Definition convertToSwarmStackSpec (ctx : SubstContext)
    (swarmBackend : SwarmResourceBackend) (spec : StackSpec)
    : traced (SwarmStackSpec * error) :=
  '(substitutedSpec, err) ← call Substitution (DoSubstitution ctx spec);
  match err with
  | Some err => mret (zero, Some err)
  | None =>
  let namespace := NewNamespace (MetaName (SpecMetadata spec)) in
  '(services, err) ←
     call ServiceConversion (convertServices namespace substitutedSpec swarmBackend);
  match err with
  | Some err => mret (zero, Some ("failed to convert services : " +:+ err))
  | None =>
  '(configs, err) ←
     call ConfigConversion (convertConfigs namespace (SpecConfigs substitutedSpec));
  match err with
  | Some err => mret (zero, Some ("failed to convert configs: " +:+ err))
  | None =>
  '(secrets, err) ←
     call SecretConversion (convertSecrets namespace (SpecSecrets substitutedSpec));
  match err with
  | Some err => mret (zero, Some ("failed to convert secrets: " +:+ err))
  | None =>
  let serviceNetworks := getServicesDeclaredNetworks (SpecServices substitutedSpec) in
  '(networkCreates, _) ←
     call NetworkConversion
          (convertNetworks namespace (SpecNetworks substitutedSpec) serviceNetworks);
  let stackSpec :=
    {| Annotations :=
         {| swarm.Name := MetaName (SpecMetadata spec);
            swarm.Labels := MetaLabels (SpecMetadata spec) |};
       SwarmServices_ := services;
       SwarmConfigs_ := configs;
       SwarmSecrets_ := secrets;
       SwarmNetworks_ := networkCreates |} in
  mret (stackSpec, None)
  end end end end.

(** *** The store and the methods that write to it *)

(** The state of the stack store, which lives outside the listing. *)
Context {Store : Type}.

(** [types.OrchestratorSwarm], a constant of package [types]. *)
Variable OrchestratorSwarm : string.

(** [types.StackCreate] and [types.StackCreateResponse] *)
Record StackCreate := { CreateOrchestrator : string; CreateSpec : StackSpec }.
Record StackCreateResponse := { ResponseID : string }.

Global Instance StackCreateResponse_zero : Zero StackCreateResponse :=
  {| ResponseID := "" |}.

(** The literal [types.Stack{Spec: ..., Orchestrator: ...}] that
    [CreateStack] hands to the store, by the two fields it sets, and the
    literal [interfaces.SwarmStack{Spec: ...}]. *)
Record NewStack := { NewSpec : StackSpec; NewOrchestrator : string }.
Record SwarmStack := { SwarmSpec : SwarmStackSpec }.

(** The two methods of [interfaces.StackStore] that these methods call; each
    may change the store. *)
Record StackStore := {
  StoreAddStack : NewStack → SwarmStack → Store → string * error * Store;
  StoreUpdateStack :
    string → StackSpec → SwarmStackSpec → N → Store → error * Store
}.

Definition CreateStack (stackStore : StackStore) (ctx : SubstContext)
    (swarmBackend : SwarmResourceBackend) (create : StackCreate)
    (store : Store) (log : list stage)
    : StackCreateResponse * error * Store * list stage :=
  if decide (CreateOrchestrator create ≠ OrchestratorSwarm) then
    (zero,
     Some ("invalid orchestrator type " +:+ CreateOrchestrator create
           +:+ ". This backend only supports orchestrator type swarm"),
     store, log)
  else
    let stack :=
      {| NewSpec := CreateSpec create; NewOrchestrator := OrchestratorSwarm |} in
    let '(swarmSpec, err, log) :=
      convertToSwarmStackSpec ctx swarmBackend (CreateSpec create) log in
    match err with
    | Some err =>
        (zero, Some ("unable to translate swarm spec: " +:+ err), store, log)
    | None =>
        let swarmStack := {| SwarmSpec := swarmSpec |} in
        let '(id, err, store) := StoreAddStack stackStore stack swarmStack store in
        match err with
        | Some err => (zero, Some ("unable to store stack: " +:+ err), store, log)
        | None => ({| ResponseID := id |}, None, store, log)
        end
    end.

Definition UpdateStack (stackStore : StackStore) (ctx : SubstContext)
    (swarmBackend : SwarmResourceBackend) (id : string) (spec : StackSpec)
    (version : N) (store : Store) (log : list stage)
    : error * Store * list stage :=
  let '(swarmSpec, err, log) :=
    convertToSwarmStackSpec ctx swarmBackend spec log in
  match err with
  | Some err => (Some ("unable to translate swarm spec: " +:+ err), store, log)
  | None =>
      let '(err, store) := StoreUpdateStack stackStore id spec swarmSpec version store in
      (err, store, log)
  end.

End Conversion.

End backend.

(** ** Package [backend], first listing

    The first listing differs from the second in [getSwarmTasks], which
    picks the filter itself and returns early for no IDs. *)

Module backend_first.
Section WithStackLabel.

Variable StackLabel : string.

Definition getSwarmTasks (b : SwarmResourceBackend) (stackIDs : list string)
    : GoMap string (list swarm.Task) * error :=
  match stackIDs with
  | [] => (Some ∅, None)
  | _ =>
      let f :=
        match stackIDs with
        | [stackID] => interfaces.StackLabelFilter StackLabel stackID
        | _ => filters.NewArgs [filters.Arg "label" StackLabel]
        end in
      let idsmap := backend.newIDsMap stackIDs in
      match GetTasks b f with
      | (_, Some err) =>
          (Some idsmap,
           Some ("unable to get tasks for stacks " +:+ fmt_strings stackIDs
                 +:+ ": " +:+ err))
      | (tasks, None) =>
          backend.withMap
            (backend.groupByStack StackLabel backend.taskLabels
               "internal error: found task with no stack label despite label"
               tasks idsmap)
      end
  end.

End WithStackLabel.
End backend_first.

(** * Specification-side notions *)

(** What the joins guarantee about one answer [resources] of the query,
    [result] being what the join returned. *)
Definition FailFastJoin {R} (StackLabel : string) (labels : R → GoMap string string)
    (msg : string) (stackIDs : list string) (resources : list R)
    (result : GoMap string (list R) * error) : Prop :=
  let stackOf := λ r, index (labels r) StackLabel in
  let grouped := λ (seen : list R) (idsmap : gmap string (list R)),
    ∀ stackID,
      idsmap !! stackID
      = if decide (stackID ∈ stackIDs)
        then Some (filter (λ r, stackOf r = Some stackID) seen)
        else None in
  (Forall (λ r, is_Some (stackOf r)) resources →
   ∃ idsmap, result = (Some idsmap, None) ∧ grouped resources idsmap)
  ∧ (∀ before r after,
       resources = (before ++ r :: after)%list →
       Forall (λ r, is_Some (stackOf r)) before →
       stackOf r = None →
       ∃ idsmap, result = (Some idsmap, Some msg) ∧ grouped before idsmap).

(** The name under which a service's status is recorded. *)
Definition serviceName (service : swarm.Service) : string :=
  swarm.Name (swarm.ServiceAnnotations (swarm.Spec service)).

(** The number of tasks counted as current for a service, in the spec's
    words: the tasks whose [ServiceID] is the service's ID and whose state
    is running. *)
Definition runningTasks (service : swarm.Service) (tasks : list swarm.Task) : Z :=
  Z.of_nat (length (filter (λ task, swarm.ServiceID task = swarm.ID service
                                    ∧ swarm.State (swarm.Status task)
                                      = swarm.TaskStateRunning) tasks)).

(** A replicated service carries a replica count. *)
Definition replicasSet (service : swarm.Service) : Prop :=
  ∀ replicated,
    swarm.Replicated (swarm.Mode (swarm.Spec service)) = Some replicated →
    is_Some (swarm.Replicas replicated).

(** The filter predicates of the spec's Label Correlator and the [Args]
    that stand for them: no constraint at all (the spec's no-match
    predicate applies no stack-label constraint), equality of one label
    with a value, presence of one label. *)
Inductive FilterPredicate :=
| NoConstraint
| LabelEquals (key value : string)
| LabelExists (key : string).

Definition toArgs (p : FilterPredicate) : filters.Args :=
  match p with
  | NoConstraint => ∅
  | LabelEquals key value => {["label" := {[key +:+ "=" +:+ value]}]}
  | LabelExists key => {["label" := {[key]}]}
  end.

(** The spec's [filterFor]. *)
Definition filterFor_spec (StackLabel : string) (stackIDs : list string)
    : FilterPredicate :=
  match stackIDs with
  | [] => NoConstraint
  | [stackID] => LabelEquals StackLabel stackID
  | _ => LabelExists StackLabel
  end.

(** The networks a service declares, ["default"] standing in for none. *)
Definition declaredNetworks {ServiceNetworkConfig : Type}
    (serviceConfig : backend.ServiceConfig (ServiceNetworkConfig:=ServiceNetworkConfig))
    : gset string :=
  if decide (backend.Networks serviceConfig = ∅) then {["default"]}
  else dom (backend.Networks serviceConfig).

(** [returned] is [inner] behind a non-empty prefix. *)
Definition wraps (returned inner : string) : Prop :=
  ∃ prefix, prefix ≠ "" ∧ returned = prefix +:+ inner.

(** Every list of the map a join returned holds resources the query
    answered, in the order received, all labelled with the list's key, and
    the key is a requested ID. *)
Definition FiledByLabel {R} (StackLabel : string) (labels : R → GoMap string string)
    (stackIDs : list string) (resources : list R)
    (result : GoMap string (list R) * error) : Prop :=
  ∃ idsmap,
    result.1 = Some idsmap
    ∧ ∀ stackID stackRs,
        idsmap !! stackID = Some stackRs →
        stackID ∈ stackIDs
        ∧ stackRs `sublist_of` resources
        ∧ Forall (λ r, index (labels r) StackLabel = Some stackID) stackRs.

(** A join reports no error exactly when every resource is labelled, and
    its only error then is [msg]. *)
Definition ErrsOnUnlabelled {R} (StackLabel : string) (labels : R → GoMap string string)
    (msg : string) (resources : list R)
    (result : GoMap string (list R) * error) : Prop :=
  (result.2 = None ↔ Forall (λ r, is_Some (index (labels r) StackLabel)) resources)
  ∧ (result.2 = None ∨ result.2 = Some msg).

(** The maps bind the ID of every stack of the list. *)
Definition binds_all (stacks : list types.Stack)
    (taskMap : GoMap string (list swarm.Task))
    (serviceMap : GoMap string (list swarm.Service))
    (secretMap : GoMap string (list swarm.Secret))
    (configMap : GoMap string (list swarm.Config)) : Prop :=
  Forall (λ stack,
            is_Some (index taskMap (types.ID stack))
            ∧ is_Some (index serviceMap (types.ID stack))
            ∧ is_Some (index secretMap (types.ID stack))
            ∧ is_Some (index configMap (types.ID stack))) stacks.


(** * A sample cluster

    Concrete stacks, resources, backends and conversion stages on which the
    statements below are exercised. *)

Module sample.

Definition StackLabel : string := "com.docker.stacks.stack_id".

Definition labelsOf (stackID : string) : GoMap string string :=
  Some {[StackLabel := stackID]}.

Definition task (id serviceID : string) (state : swarm.TaskState)
    (labels : GoMap string string) : swarm.Task :=
  {| swarm.TaskID := id;
     swarm.TaskAnnotations := {| swarm.Name := id; swarm.Labels := labels |};
     swarm.ServiceID := serviceID;
     swarm.Status := {| swarm.State := state |} |}.

Definition running1 := task "t1" "s1" swarm.TaskStateRunning (labelsOf "a").
Definition running2 := task "t2" "s1" swarm.TaskStateRunning (labelsOf "a").
Definition failed3 := task "t3" "s1" swarm.TaskStateFailed (labelsOf "a").
(** A task of a stack nobody asked for, and one without the label. *)
Definition stray := task "t4" "s9" swarm.TaskStateRunning (labelsOf "z").
Definition unlabelled := task "t5" "s1" swarm.TaskStateRunning None.

Definition service (id name : string) (mode : swarm.ServiceMode) : swarm.Service :=
  {| swarm.ID := id;
     swarm.Spec :=
       {| swarm.ServiceAnnotations :=
            {| swarm.Name := name; swarm.Labels := labelsOf "a" |};
          swarm.Mode := mode |} |}.

(** Replicated with 3 replicas; global; replicated with a [nil] count. *)
Definition web :=
  service "s1" "web"
    {| swarm.Replicated := Some {| swarm.Replicas := Some 3%N |};
       swarm.Global := None |}.
Definition agent :=
  service "s2" "agent"
    {| swarm.Replicated := None; swarm.Global := Some swarm.Build_GlobalService |}.
Definition unset :=
  service "s3" "unset"
    {| swarm.Replicated := Some {| swarm.Replicas := None |};
       swarm.Global := None |}.

Definition stack (id : string) (statuses : GoMap string types.ServiceStatus)
    : types.Stack :=
  {| types.ID := id;
     types.Resources := zero;
     types.Status := {| types.ServicesStatus := statuses |} |}.

Definition stackA := stack "a" (Some ∅).
Definition stackB := stack "b" (Some ∅).
Definition stackNil := stack "a" None.

Definition nodes (n : nat) : list swarm.Node :=
  replicate n {| swarm.NodeID := "node" |}.

(** Five nodes; stack [a] owns [web] and three of the four tasks. *)
Definition cluster : SwarmResourceBackend :=
  {| GetTasks := λ _, ([running1; running2; failed3; stray], None);
     GetServices := λ _, ([web], None);
     GetSecrets := λ _, ([], None);
     GetConfigs := λ _, ([], None);
     GetNodes := λ _, (nodes 5, None) |}.

(** The same cluster answering the task query with an unlabelled task in
    second place. *)
Definition inconsistent : SwarmResourceBackend :=
  {| GetTasks := λ _, ([running1; unlabelled; running2], None);
     GetServices := GetServices cluster;
     GetSecrets := GetSecrets cluster;
     GetConfigs := GetConfigs cluster;
     GetNodes := GetNodes cluster |}.

(** A backend that answers the task query with [tasks] under the filter
    [f] and refuses every other filter. *)
Definition answering (f : filters.Args) (tasks : list swarm.Task)
    : SwarmResourceBackend :=
  {| GetTasks := λ f', if decide (f' = f) then (tasks, None)
                       else ([], Some "unexpected filter");
     GetServices := GetServices cluster;
     GetSecrets := GetSecrets cluster;
     GetConfigs := GetConfigs cluster;
     GetNodes := GetNodes cluster |}.

(** A cluster with nodes and no resources. *)
Definition idle : SwarmResourceBackend :=
  {| GetTasks := λ _, ([], None);
     GetServices := λ _, ([], None);
     GetSecrets := λ _, ([], None);
     GetConfigs := λ _, ([], None);
     GetNodes := λ _, (nodes 5, None) |}.

(** What the calls under study return on the sample. *)
Definition populatedA : types.Stack :=
  match backend.populateStackStatus stackA [running1; running2; failed3] [web; agent]
          [] [] 5%N 0%Z with
  | Returns (stack, _, _) => stack
  | Panics _ => zero
  end.

Definition statusesOfIdle : list types.Stack :=
  match backend.getStackStatuses StackLabel idle [stackA; stackB] 0%Z with
  | Returns (stacks, _, _) => stacks
  | Panics _ => []
  end.

(** *** A compose spec and conversion stages

    Collections that the conversion only passes along are lists of names;
    the namespace is the stack name. *)

Abbreviation ComposeSpec :=
  (@backend.StackSpec unit (list string) (list string) (list string)).

Definition composeSpec : ComposeSpec :=
  {| backend.SpecMetadata :=
       {| backend.MetaName := "demo"; backend.MetaLabels := None |};
     backend.SpecServices :=
       [ {| backend.ServiceName := "web"; backend.Networks := ∅ |};
         {| backend.ServiceName := "db";
            backend.Networks := {["backnet" := tt]} |} ];
     backend.SpecConfigs := [];
     backend.SpecSecrets := ["token"];
     backend.SpecNetworks := ["backnet"] |}.

Definition qualify (namespace : string) (names : list string) : list string :=
  (λ name, namespace +:+ "_" +:+ name) <$> names.

Definition substitutes (_ : unit) (spec : ComposeSpec)
    : ComposeSpec * error :=
  (spec, None).

Definition substitutionFails (_ : unit) (spec : ComposeSpec)
    : ComposeSpec * error :=
  (spec, Some "variable TAG is not set").

Definition namespaceOf (name : string) : string := name.

Definition servicesConverted (namespace : string) (spec : ComposeSpec)
    (_ : SwarmResourceBackend) : list string * error :=
  (qualify namespace (backend.ServiceName <$> backend.SpecServices spec), None).

Definition servicesFail (namespace : string) (spec : ComposeSpec)
    (_ : SwarmResourceBackend) : list string * error :=
  ([], Some "secret token not found").

Definition namesConverted (namespace : string) (names : list string)
    : list string * error :=
  (qualify namespace names, None).

Definition namesFail (namespace : string) (names : list string)
    : list string * error :=
  ([], Some "invalid name").

Definition networksConverted (namespace : string) (names : list string)
    (serviceNetworks : gset string) : list string * list string :=
  (qualify namespace (elements serviceNetworks), []).

End sample.

(** * More of the sample: a backend that is down, and a store *)

Module sample_store.

(** The task query fails. *)
Definition down : SwarmResourceBackend :=
  {| GetTasks := λ _, ([], Some "connection refused");
     GetServices := GetServices sample.cluster;
     GetSecrets := GetSecrets sample.cluster;
     GetConfigs := GetConfigs sample.cluster;
     GetNodes := GetNodes sample.cluster |}.

(** A store that keeps the names of the stacks it holds: adding a stack
    twice and updating a stack it does not hold are errors. *)
Definition addStack
    (stack : @backend.NewStack unit (list string) (list string) (list string))
    (swarmStack : @backend.SwarmStack (list string) (list string) (list string)
                    (list string))
    (store : list string) : string * error * list string :=
  let name := backend.MetaName (backend.SpecMetadata (backend.NewSpec stack)) in
  if decide (name ∈ store) then ("", Some "stack exists", store)
  else (name, None, name :: store).

Definition updateStack (id : string) (spec : sample.ComposeSpec)
    (swarmSpec : @backend.SwarmStackSpec (list string) (list string) (list string)
                   (list string))
    (version : N) (store : list string) : error * list string :=
  if decide (id ∈ store) then (None, store) else (Some "stack not found", store).

Definition stackStore :=
  {| backend.StoreAddStack := addStack; backend.StoreUpdateStack := updateStack |}.

Definition createDemo (orchestrator : string)
    : @backend.StackCreate unit (list string) (list string) (list string) :=
  {| backend.CreateOrchestrator := orchestrator;
     backend.CreateSpec := sample.composeSpec |}.

End sample_store.

(** * Properties *)

(** ** The joins *)

Section JoinProperties.

Variable StackLabel : string.

Section Grouping.

Context {R : Type}.
Variable labels : R → GoMap string string.
Variable msg : string.

Abbreviation stackOf := (λ r : R, index (labels r) StackLabel).
Abbreviation group := (backend.groupByStack StackLabel labels msg).

Lemma newIDsMap_lookup (stackIDs : list string) (stackID : string) :
  backend.newIDsMap (R:=R) stackIDs !! stackID
  = if decide (stackID ∈ stackIDs) then Some [] else None.
Proof.
  unfold backend.newIDsMap.
  assert (G : ∀ m : gmap string (list R),
             foldl (λ idsmap k, <[k := []]> idsmap) m stackIDs !! stackID
             = if decide (stackID ∈ stackIDs) then Some [] else m !! stackID).
  { induction stackIDs as [|k ks IH]; intros m; cbn [foldl].
    - case_decide as Hin; [by apply elem_of_nil in Hin | done].
    - rewrite IH.
      destruct (decide (stackID ∈ ks)) as [Hks|Hks];
        destruct (decide (stackID ∈ k :: ks)) as [Hin|Hout]; try done.
      + exfalso. apply Hout. by right.
      + apply elem_of_cons in Hin as [->|Hin]; [|done]. by rewrite lookup_insert_eq.
      + rewrite lookup_insert_ne; [done|]. intros ->. apply Hout. by left. }
  rewrite G. by case_decide.
Qed.

Lemma newIDsMap_dom (stackIDs : list string) :
  dom (backend.newIDsMap (R:=R) stackIDs) = list_to_set stackIDs.
Proof.
  apply set_eq. intros k. rewrite elem_of_dom, newIDsMap_lookup, elem_of_list_to_set.
  case_decide; split; intros H'; try done; by destruct H'.
Qed.

Lemma groupByStack_dom (resources : list R) (idsmap : gmap string (list R)) :
  dom (group resources idsmap).1 = dom idsmap.
Proof.
  revert idsmap. induction resources as [|r rest IH]; intros idsmap; simpl; [done|].
  destruct (index (labels r) StackLabel) as [stackID|]; [|done].
  destruct (idsmap !! stackID) as [stackRs|] eqn:Hfound; [|apply IH].
  rewrite IH. by apply dom_insert_lookup_L.
Qed.

Lemma groupByStack_labelled (resources : list R) (idsmap : gmap string (list R)) :
  Forall (λ r, is_Some (stackOf r)) resources →
  (group resources idsmap).2 = None
  ∧ ∀ stackID,
      (group resources idsmap).1 !! stackID
      = (λ stackRs, stackRs ++ filter (λ r, stackOf r = Some stackID) resources)%list
          <$> idsmap !! stackID.
Proof.
  revert idsmap. induction resources as [|r rest IH]; intros idsmap Hall; simpl.
  - split; [done|]. intros k. destruct (idsmap !! k); simpl; [|done].
    by rewrite app_nil_r.
  - apply Forall_cons in Hall as [[stackID Hr] Hrest]. rewrite Hr.
    destruct (idsmap !! stackID) as [stackRs|] eqn:Hfound.
    + destruct (IH (<[stackID := (stackRs ++ [r])%list]> idsmap) Hrest) as [-> Hm].
      split; [done|]. intros k. rewrite Hm, filter_cons.
      destruct (decide (k = stackID)) as [->|Hne].
      * rewrite lookup_insert_eq, Hfound. simpl. rewrite decide_True by done.
        by rewrite <- app_assoc.
      * rewrite lookup_insert_ne by done. rewrite decide_False by congruence. done.
    + destruct (IH idsmap Hrest) as [-> Hm]. split; [done|]. intros k.
      rewrite Hm, filter_cons. destruct (decide (k = stackID)) as [->|Hne].
      * by rewrite Hfound.
      * by rewrite decide_False by congruence.
Qed.

Lemma groupByStack_unlabelled (before after : list R) (r : R)
    (idsmap : gmap string (list R)) :
  Forall (λ r, is_Some (stackOf r)) before →
  stackOf r = None →
  group (before ++ r :: after) idsmap = ((group before idsmap).1, Some msg).
Proof.
  revert idsmap. induction before as [|r' rest IH]; intros idsmap Hall Hr; simpl.
  - by rewrite Hr.
  - apply Forall_cons in Hall as [[stackID Hr'] Hrest]. rewrite Hr'.
    destruct (idsmap !! stackID); by apply IH.
Qed.


(** What a join returns once its query has answered [resources]: with every
    resource labelled, no error and each requested ID bound to the resources
    labelled with it, in the order received; otherwise the error, next to
    the map grouped from the resources before the first unlabelled one. *)
Lemma join_labelled (stackIDs : list string) (resources : list R) :
  Forall (λ r, is_Some (stackOf r)) resources →
  ∃ idsmap,
    backend.withMap (group resources (backend.newIDsMap stackIDs)) = (Some idsmap, None)
    ∧ dom idsmap = list_to_set stackIDs
    ∧ ∀ stackID,
        idsmap !! stackID
        = if decide (stackID ∈ stackIDs)
          then Some (filter (λ r, stackOf r = Some stackID) resources)
          else None.
Proof.
  intros Hall. destruct (groupByStack_labelled resources (backend.newIDsMap stackIDs) Hall)
    as [Herr Hm].
  exists (group resources (backend.newIDsMap stackIDs)).1. split; [|split].
  - unfold backend.withMap. by rewrite Herr.
  - by rewrite groupByStack_dom, newIDsMap_dom.
  - intros k. rewrite Hm, newIDsMap_lookup. by case_decide.
Qed.

Lemma join_unlabelled (stackIDs : list string) (before after : list R) (r : R) :
  Forall (λ r, is_Some (stackOf r)) before →
  stackOf r = None →
  ∃ idsmap,
    backend.withMap (group (before ++ r :: after) (backend.newIDsMap stackIDs))
    = (Some idsmap, Some msg)
    ∧ dom idsmap = list_to_set stackIDs
    ∧ ∀ stackID,
        idsmap !! stackID
        = if decide (stackID ∈ stackIDs)
          then Some (filter (λ r, stackOf r = Some stackID) before)
          else None.
Proof.
  intros Hall Hr.
  destruct (join_labelled stackIDs before Hall) as (idsmap & Heq & Hdom & Hm).
  exists idsmap. split; [|done].
  rewrite (groupByStack_unlabelled before after r _ Hall Hr).
  unfold backend.withMap in *. simpl in *. congruence.
Qed.

End Grouping.

Abbreviation labelled labels :=
  (Forall (λ r, is_Some (index (labels r) StackLabel))).

(** C3: when its query succeeds and every returned resource carries the
    stack label, each of the four joins (tasks, services, secrets, configs)
    returns, without error, a map whose key set is exactly the set of
    requested stack IDs, whatever stacks the resources are labelled with. *)
Theorem join_key_set_exact (b : SwarmResourceBackend) (stackIDs : list string) :
  (∀ tasks,
     GetTasks b (backend.stackLabelFilters StackLabel stackIDs) = (tasks, None) →
     labelled backend.taskLabels tasks →
     ∃ idsmap, backend.getSwarmTasks StackLabel b stackIDs = (Some idsmap, None)
               ∧ dom idsmap = list_to_set stackIDs)
  ∧ (∀ services,
     GetServices b (backend.stackLabelFilters StackLabel stackIDs) = (services, None) →
     labelled backend.serviceLabels services →
     ∃ idsmap, backend.getSwarmServices StackLabel b stackIDs = (Some idsmap, None)
               ∧ dom idsmap = list_to_set stackIDs)
  ∧ (∀ secrets,
     GetSecrets b (backend.stackLabelFilters StackLabel stackIDs) = (secrets, None) →
     labelled backend.secretLabels secrets →
     ∃ idsmap, backend.getSwarmSecrets StackLabel b stackIDs = (Some idsmap, None)
               ∧ dom idsmap = list_to_set stackIDs)
  ∧ (∀ configs,
     GetConfigs b (backend.stackLabelFilters StackLabel stackIDs) = (configs, None) →
     labelled backend.configLabels configs →
     ∃ idsmap, backend.getSwarmConfigs StackLabel b stackIDs = (Some idsmap, None)
               ∧ dom idsmap = list_to_set stackIDs).
Proof.
  repeat split; intros resources Hquery Hall;
    [unfold backend.getSwarmTasks | unfold backend.getSwarmServices
    | unfold backend.getSwarmSecrets | unfold backend.getSwarmConfigs];
    rewrite Hquery;
    (edestruct (λ msg, join_labelled _ msg stackIDs resources Hall)
       as (idsmap & Heq & Hdom & _); eauto).
Qed.


(** C5, as the code has it: once the query has answered, a join whose
    resources are all labelled returns no error and binds each requested ID
    to exactly the resources labelled with it, so that a resource labelled
    with an unrequested ID is dropped silently; a join that meets an
    unlabelled resource returns the internal error together with the map
    grouped from the resources that precede it.  [getStackStatuses] keeps
    nothing of a failed join: it returns the empty list and the error. *)
Theorem join_fails_fast_with_map (b : SwarmResourceBackend) (stackIDs : list string) :
  (∀ tasks,
     GetTasks b (backend.stackLabelFilters StackLabel stackIDs) = (tasks, None) →
     FailFastJoin StackLabel backend.taskLabels
       "internal error: found task with no stack label"
       stackIDs tasks (backend.getSwarmTasks StackLabel b stackIDs))
  ∧ (∀ services,
     GetServices b (backend.stackLabelFilters StackLabel stackIDs) = (services, None) →
     FailFastJoin StackLabel backend.serviceLabels
       "internal error: found service with no stack label"
       stackIDs services (backend.getSwarmServices StackLabel b stackIDs))
  ∧ (∀ secrets,
     GetSecrets b (backend.stackLabelFilters StackLabel stackIDs) = (secrets, None) →
     FailFastJoin StackLabel backend.secretLabels
       "internal error: found secret with no stack label"
       stackIDs secrets (backend.getSwarmSecrets StackLabel b stackIDs))
  ∧ (∀ configs,
     GetConfigs b (backend.stackLabelFilters StackLabel stackIDs) = (configs, None) →
     FailFastJoin StackLabel backend.configLabels
       "internal error: found service with no stack label"
       stackIDs configs (backend.getSwarmConfigs StackLabel b stackIDs))
  ∧ (∀ stacks curentTasks,
     stackIDs = types.ID <$> stacks → stacks ≠ [] →
     (backend.getSwarmTasks StackLabel b stackIDs).2 ≠ None
     ∨ (backend.getSwarmServices StackLabel b stackIDs).2 ≠ None
     ∨ (backend.getSwarmSecrets StackLabel b stackIDs).2 ≠ None
     ∨ (backend.getSwarmConfigs StackLabel b stackIDs).2 ≠ None →
     ∃ err, backend.getStackStatuses StackLabel b stacks curentTasks
            = Returns ([], Some err, curentTasks)).
Proof.
  split; [|split; [|split; [|split]]].
  1-4: intros resources Hquery;
    unfold backend.getSwarmTasks, backend.getSwarmServices,
      backend.getSwarmSecrets, backend.getSwarmConfigs;
    rewrite Hquery; split;
    [ intros Hall;
      edestruct (λ msg, join_labelled _ msg stackIDs resources Hall)
        as (idsmap & Heq & _ & Hm); eauto
    | intros before r after -> Hall Hr;
      edestruct (λ msg, join_unlabelled _ msg stackIDs before after r Hall Hr)
        as (idsmap & Heq & _ & Hm); eauto ].
  intros stacks curentTasks -> Hne Herr.
  unfold backend.getStackStatuses. destruct stacks as [|stack stacks]; [done|].
  destruct (backend.getSwarmTasks _ _ _) as [tasks [e|]]; [by eexists|].
  destruct (backend.getSwarmServices _ _ _) as [services [e|]]; [by eexists|].
  destruct (backend.getSwarmSecrets _ _ _) as [secrets [e|]]; [by eexists|].
  destruct (backend.getSwarmConfigs _ _ _) as [configs [e|]]; [by eexists|].
  simpl in Herr. by destruct Herr as [?|[?|[?|?]]].
Qed.

End JoinProperties.

(** ** [populateStackStatus] *)

Section StatusProperties.

Implicit Types (stack : types.Stack) (service : swarm.Service).
Implicit Types (services : list swarm.Service) (tasks : list swarm.Task).

Lemma desiredTasksOf_completes service numNodes :
  completes (backend.desiredTasksOf service numNodes) ↔ replicasSet service.
Proof.
  unfold backend.desiredTasksOf, replicasSet.
  destruct (swarm.Replicated _) as [[[replicas|]]|]; simpl; split; try done.
  - intros _ ? [= <-]. by eexists.
  - intros Hset. destruct (Hset _ eq_refl) as [? [=]].
Qed.

Lemma servicesLoop_completes services tasks numNodes stack curentTasks :
  completes (backend.servicesLoop services tasks numNodes stack curentTasks)
  ↔ (services = [] ∨ is_Some (types.ServicesStatus (types.Status stack)))
    ∧ Forall replicasSet services.
Proof.
  revert stack curentTasks.
  induction services as [|service rest IH]; intros stack curentTasks; simpl.
  - split; [intros _; split; [by left | constructor] | done].
  - pose proof (desiredTasksOf_completes service numNodes) as Hd.
    destruct (backend.desiredTasksOf service numNodes) as [desiredTasks|msg]; simpl in *.
    + destruct (types.ServicesStatus (types.Status stack)) as [statuses|] eqn:Hmap.
      * rewrite IH. simpl. split.
        -- intros [_ Hrest]. split; [by right | constructor; [by apply Hd | done]].
        -- intros [_ Hall]. apply Forall_cons in Hall as [_ Hrest].
           split; [by right | done].
      * simpl. split; [done|]. intros [[?|[? ?]] _]; done.
    + split; [done|]. intros [_ Hall]. apply Forall_cons in Hall as [Hs _].
      by apply Hd.
Qed.

(** What the loop over the services has recorded when it returns. *)
Lemma servicesLoop_returns services tasks numNodes stack curentTasks stack' curentTasks'
    statuses :
  backend.servicesLoop services tasks numNodes stack curentTasks
  = Returns (stack', curentTasks') →
  types.ServicesStatus (types.Status stack) = Some statuses →
  ∃ statuses',
    types.ServicesStatus (types.Status stack') = Some statuses'
    ∧ (∀ name, name ∉ serviceName <$> services → statuses' !! name = statuses !! name)
    ∧ (∀ before service after,
         services = (before ++ service :: after)%list →
         serviceName service ∉ serviceName <$> after →
         ∃ desiredTasks,
           backend.desiredTasksOf service numNodes = Returns desiredTasks
           ∧ statuses' !! serviceName service
             = Some {| types.CurrentTasks := 0;
                       types.DesiredTasks := desiredTasks |}).
Proof.
  revert stack curentTasks statuses.
  induction services as [|s rest IH]; intros stack curentTasks statuses; simpl.
  - intros [= <- <-] Hmap. exists statuses. split; [done|]. split; [done|].
    intros [|??] ?? ?; done.
  - destruct (backend.desiredTasksOf s numNodes) as [desiredTasks|msg] eqn:Hd; [|done].
    intros Hloop Hmap. rewrite Hmap in Hloop.
    eapply IH in Hloop as (statuses' & Hmap' & Hother & Hrec); [|done].
    exists statuses'. split; [done|]. split.
    + intros name Hname. apply not_elem_of_cons in Hname as [Hne Hname].
      rewrite (Hother name Hname). by rewrite lookup_insert_ne.
    + intros [|b before] service after Heq Hlast; simplify_eq/=.
      * exists desiredTasks. split; [done|].
        rewrite (Hother _ Hlast). apply lookup_insert_eq.
      * by eapply Hrec.
Qed.

Lemma servicesLoop_keeps services tasks numNodes stack curentTasks stack' curentTasks' :
  backend.servicesLoop services tasks numNodes stack curentTasks
  = Returns (stack', curentTasks') →
  types.ID stack' = types.ID stack ∧ types.Resources stack' = types.Resources stack.
Proof.
  revert stack curentTasks.
  induction services as [|s rest IH]; intros stack curentTasks; simpl.
  - by intros [= <- <-].
  - destruct (backend.desiredTasksOf s numNodes); [|done].
    destruct (types.ServicesStatus (types.Status stack)); [|done].
    intros Hloop. by apply IH in Hloop.
Qed.

(** The count of running tasks goes to [curentTasks]. *)
Lemma countTasks_running service tasks curentTasks :
  (0 ≤ curentTasks)%Z →
  (curentTasks + runningTasks service tasks < 2 ^ 63)%Z →
  backend.countTasks service tasks curentTasks
  = (curentTasks + runningTasks service tasks)%Z.
Proof.
  unfold backend.countTasks, runningTasks. revert curentTasks.
  induction tasks as [|task rest IH]; intros curentTasks Hnn Hlt; simpl.
  - lia.
  - rewrite filter_cons in *. case_decide; simpl in *.
    + assert (backend.wrap_int (curentTasks + 1) = (curentTasks + 1)%Z) as ->.
      { unfold backend.wrap_int. rewrite Z.mod_small; lia. }
      rewrite IH; lia.
    + by apply IH.
Qed.

(** What [populateStackStatus] leaves under the name of a service that no
    later service of the list overwrites. *)
Lemma populateStackStatus_records stack tasks services secrets configs numNodes
    curentTasks stack' err curentTasks' before service after :
  backend.populateStackStatus stack tasks services secrets configs numNodes curentTasks
  = Returns (stack', err, curentTasks') →
  services = (before ++ service :: after)%list →
  serviceName service ∉ serviceName <$> after →
  ∃ desiredTasks,
    backend.desiredTasksOf service numNodes = Returns desiredTasks
    ∧ index (types.ServicesStatus (types.Status stack')) (serviceName service)
      = Some {| types.CurrentTasks := 0; types.DesiredTasks := desiredTasks |}.
Proof.
  unfold backend.populateStackStatus. intros Hpop Hsplit Hlast.
  destruct (backend.servicesLoop _ _ _ _ _) as [[stack1 c1]|] eqn:Hloop; [|done].
  injection Hpop as <- <- <-.
  assert (is_Some (types.ServicesStatus (types.Status stack))) as [statuses Hmap].
  { assert (completes (backend.servicesLoop services tasks numNodes
              {| types.ID := types.ID stack;
                 types.Resources :=
                   {| types.Services := Some (backend.stackServices services);
                      types.Secrets := Some (backend.stackSecrets secrets);
                      types.Configs := Some (backend.stackConfigs configs) |};
                 types.Status := types.Status stack |} curentTasks)) as Hc
      by by rewrite Hloop.
    apply servicesLoop_completes in Hc as [[->|Hsome] _]; [|done].
    by destruct before. }
  eapply servicesLoop_returns in Hloop as (statuses' & Hmap' & _ & Hrec); [|done].
  destruct (Hrec _ _ _ Hsplit Hlast) as (d & Hd & Hlook).
  exists d. split; [done|]. by rewrite Hmap'.
Qed.

Lemma populateStackStatus_returns stack tasks services secrets configs numNodes
    curentTasks stack' err curentTasks' :
  backend.populateStackStatus stack tasks services secrets configs numNodes curentTasks
  = Returns (stack', err, curentTasks') →
  err = None
  ∧ types.ID stack' = types.ID stack
  ∧ types.Resources stack'
    = {| types.Services := Some (backend.stackServices services);
         types.Secrets := Some (backend.stackSecrets secrets);
         types.Configs := Some (backend.stackConfigs configs) |}.
Proof.
  unfold backend.populateStackStatus. intros Hpop.
  destruct (backend.servicesLoop _ _ _ _ _) as [[stack1 c1]|] eqn:Hloop; [|done].
  injection Hpop as <- <- <-. by apply servicesLoop_keeps in Hloop as [-> ->].
Qed.

(** C1, as the code has it: whatever the tasks, the status recorded for a
    service has [CurrentTasks] 0, not the number of the service's running
    tasks: the loop over the tasks increments [curentTasks]. *)
Theorem populateStackStatus_currentTasks stack tasks services secrets configs numNodes
    curentTasks stack' err curentTasks' before service after :
  backend.populateStackStatus stack tasks services secrets configs numNodes curentTasks
  = Returns (stack', err, curentTasks') →
  services = (before ++ service :: after)%list →
  serviceName service ∉ serviceName <$> after →
  types.CurrentTasks <$> index (types.ServicesStatus (types.Status stack'))
                               (serviceName service)
  = Some 0%Z.
Proof.
  intros Hpop Hsplit Hlast.
  destruct (populateStackStatus_records _ _ _ _ _ _ _ _ _ _ _ _ _ Hpop Hsplit Hlast)
    as (d & _ & ->).
  done.
Qed.

(** C6: in the status [populateStackStatus] records for a service, the
    desired task count is the configured replica count when the service is
    in replicated mode, whatever the node count, and the node count
    otherwise; [getNodeCount] supplies the number of nodes the backend
    lists. *)
Theorem desired_tasks_by_mode :
  (∀ stack tasks services secrets configs numNodes curentTasks stack' err curentTasks'
     before service after,
     backend.populateStackStatus stack tasks services secrets configs numNodes curentTasks
     = Returns (stack', err, curentTasks') →
     services = (before ++ service :: after)%list →
     serviceName service ∉ serviceName <$> after →
     ∃ status,
       index (types.ServicesStatus (types.Status stack')) (serviceName service)
       = Some status
       ∧ match swarm.Replicated (swarm.Mode (swarm.Spec service)) with
         | Some replicated => swarm.Replicas replicated = Some (types.DesiredTasks status)
         | None => types.DesiredTasks status = numNodes
         end)
  ∧ (∀ b nodes,
       GetNodes b (filters.NewArgs []) = (nodes, None) →
       backend.getNodeCount b = (N.of_nat (length nodes), None)).
Proof.
  split.
  - intros stack tasks services secrets configs numNodes curentTasks stack' err
      curentTasks' before service after Hpop Hsplit Hlast.
    destruct (populateStackStatus_records _ _ _ _ _ _ _ _ _ _ _ _ _ Hpop Hsplit Hlast)
      as (d & Hd & ->).
    eexists. split; [done|]. simpl.
    unfold backend.desiredTasksOf in Hd.
    destruct (swarm.Replicated _) as [[[replicas|]]|]; simplify_eq/=; done.
  - intros b nodes Hnodes. unfold backend.getNodeCount. by rewrite Hnodes.
Qed.

(** C10: for a non-empty list of services, [populateStackStatus] returns
    rather than panics exactly when the stack's [ServicesStatus] map is not
    [nil] and every replicated service has a non-[nil] [Replicas]. *)
Theorem populateStackStatus_partial stack tasks services secrets configs numNodes
    curentTasks :
  services ≠ [] →
  (completes (backend.populateStackStatus stack tasks services secrets configs
                numNodes curentTasks)
   ↔ is_Some (types.ServicesStatus (types.Status stack))
     ∧ Forall replicasSet services).
Proof.
  intros Hne. unfold backend.populateStackStatus.
  pose proof (servicesLoop_completes services tasks numNodes
                {| types.ID := types.ID stack;
                   types.Resources :=
                     {| types.Services := Some (backend.stackServices services);
                        types.Secrets := Some (backend.stackSecrets secrets);
                        types.Configs := Some (backend.stackConfigs configs) |};
                   types.Status := types.Status stack |} curentTasks) as Hc.
  destruct (backend.servicesLoop _ _ _ _ _) as [[stack1 c1]|]; simpl in *.
  - rewrite Hc. split; intros [H1 H2]; split; try done; [by destruct H1 | by right].
  - rewrite Hc. split; intros [H1 H2]; split; try done; [by destruct H1 | by right].
Qed.


(** ** [getStackStatuses] *)

Lemma stacksLoop_returns taskMap serviceMap secretMap configMap nodeCount
    (stacks newStacks out : list types.Stack) curentTasks err curentTasks' :
  backend.stacksLoop taskMap serviceMap secretMap configMap nodeCount stacks newStacks curentTasks
  = Returns (out, err, curentTasks') →
  err = None
  ∧ ∃ populated,
      out = (newStacks ++ populated)%list
      ∧ Forall2 (λ stack stack',
                   types.ID stack' = types.ID stack
                   ∧ is_Some (types.Services (types.Resources stack')))
                stacks populated.
Proof.
  revert newStacks curentTasks.
  induction stacks as [|stack rest IH]; intros newStacks curentTasks; simpl.
  - intros [= <- <- <-]. split; [done|]. exists []. by rewrite app_nil_r.
  - destruct (index taskMap _) as [stackTasks|]; [|done].
    destruct (index serviceMap _) as [stackServices|]; [|done].
    destruct (index secretMap _) as [stackSecrets|]; [|done].
    destruct (index configMap _) as [stackConfigs|]; [|done].
    destruct (backend.populateStackStatus _ _ _ _ _ _ _) as [[[stack1 e1] c1]|] eqn:Hpop;
      [|done].
    apply populateStackStatus_returns in Hpop as (-> & Hid & Hres).
    intros Hloop. apply IH in Hloop as (-> & populated & -> & Hall).
    split; [done|]. exists (stack1 :: populated).
    split; [by rewrite <- app_assoc|].
    constructor; [|done]. split; [done|]. by rewrite Hres.
Qed.

(** C2, as the code has it: [newStacks] starts as [len(stacks)] zero-valued
    stacks and the populated stacks are appended to it, so that for [n]
    input stacks a successful call returns [2 * n] elements, the first [n]
    of them zero-valued stacks that are not among the input. *)
Theorem getStackStatuses_doubles StackLabel b (stacks out : list types.Stack)
    curentTasks curentTasks' :
  stacks ≠ [] →
  backend.getStackStatuses StackLabel b stacks curentTasks
  = Returns (out, None, curentTasks') →
  ∃ populated,
    out = (replicate (length stacks) (zero : types.Stack) ++ populated)%list
    ∧ Forall2 (λ stack stack',
                 types.ID stack' = types.ID stack
                 ∧ is_Some (types.Services (types.Resources stack')))
              stacks populated
    ∧ length out = 2 * length stacks.
Proof.
  intros Hne. unfold backend.getStackStatuses.
  destruct stacks as [|stack0 rest] eqn:Hstacks; [done|]. rewrite <- Hstacks. clear Hne.
  destruct (backend.getSwarmTasks _ _ _) as [taskMap [e|]]; [done|].
  destruct (backend.getSwarmServices _ _ _) as [serviceMap [e|]]; [done|].
  destruct (backend.getSwarmSecrets _ _ _) as [secretMap [e|]]; [done|].
  destruct (backend.getSwarmConfigs _ _ _) as [configMap [e|]]; [done|].
  destruct (backend.getNodeCount b) as [nodeCount [e|]]; [done|].
  intros Hloop. apply stacksLoop_returns in Hloop as (_ & populated & -> & Hall).
  exists populated. split; [done|]. split; [done|].
  rewrite length_app, length_replicate. apply Forall2_length in Hall. lia.
Qed.

End StatusProperties.

(** ** The label filters *)

Section FilterProperties.

Variable StackLabel : string.

Lemma NewArgs_nil : filters.NewArgs [] = ∅.
Proof. done. Qed.

Lemma NewArgs_singleton key value :
  filters.NewArgs [filters.Arg key value] = {[key := {[value]}]}.
Proof.
  unfold filters.NewArgs, filters.Add. simpl.
  rewrite lookup_empty. simpl. by rewrite union_empty_r_L, insert_empty.
Qed.

Lemma stackLabelFilters_toArgs (stackIDs : list string) :
  backend.stackLabelFilters StackLabel stackIDs
  = toArgs match stackIDs with
           | [stackID] =>
               if decide (stackID = "") then NoConstraint
               else LabelEquals StackLabel stackID
           | _ => LabelExists StackLabel
           end.
Proof.
  unfold backend.stackLabelFilters, interfaces.StackLabelFilter.
  destruct stackIDs as [|stackID [|??]]; simpl; try apply NewArgs_singleton.
  case_decide; simpl; [done | apply NewArgs_singleton].
Qed.

(** C4, as the code has it: [stackLabelFilters] builds the existence-only
    predicate on the stack-label key for an empty sequence as for two or
    more IDs; for exactly one ID it builds the equality predicate on
    [<key>=<id>], unless the ID is the empty string, for which it builds
    the empty filter.  [getSwarmTasks] of the first listing, for at least
    one ID, queries the tasks under that same filter and joins the answer;
    for no IDs it returns an empty map without a query. *)
Theorem stackLabelFilters_cases (stackIDs : list string) :
  backend.stackLabelFilters StackLabel stackIDs
  = toArgs match stackIDs with
           | [stackID] =>
               if decide (stackID = "") then NoConstraint
               else LabelEquals StackLabel stackID
           | _ => LabelExists StackLabel
           end
  ∧ (∀ b, backend_first.getSwarmTasks StackLabel b [] = (Some ∅, None))
  ∧ (∀ b,
       stackIDs ≠ [] →
       backend_first.getSwarmTasks StackLabel b stackIDs
       = match GetTasks b (backend.stackLabelFilters StackLabel stackIDs) with
         | (_, Some err) =>
             (Some (backend.newIDsMap stackIDs),
              Some ("unable to get tasks for stacks " +:+ fmt_strings stackIDs
                    +:+ ": " +:+ err))
         | (tasks, None) =>
             backend.withMap
               (backend.groupByStack StackLabel backend.taskLabels
                  "internal error: found task with no stack label despite label"
                  tasks (backend.newIDsMap stackIDs))
         end).
Proof.
  split; [apply stackLabelFilters_toArgs|]. split; [done|].
  intros b Hne. unfold backend_first.getSwarmTasks, backend.stackLabelFilters.
  by destruct stackIDs as [|stackID [|??]].
Qed.

End FilterProperties.

(** ** Spec conversion *)

Section ConversionProperties.

Context {ServiceNetworkConfig ConfigObjs SecretObjs NetworkObjs : Type}.
Context {Namespace SwarmServices SwarmConfigs SwarmSecrets NetworkCreates
         ExternalNetworks SubstContext : Type}.
Context `{!Zero SwarmServices, !Zero SwarmConfigs, !Zero SwarmSecrets,
          !Zero NetworkCreates}.

Abbreviation ServiceConfig :=
  (backend.ServiceConfig (ServiceNetworkConfig:=ServiceNetworkConfig)).
Abbreviation StackSpec :=
  (backend.StackSpec (ServiceNetworkConfig:=ServiceNetworkConfig)
     (ConfigObjs:=ConfigObjs) (SecretObjs:=SecretObjs) (NetworkObjs:=NetworkObjs)).

Variable DoSubstitution : SubstContext → StackSpec → StackSpec * error.
Variable NewNamespace : string → Namespace.
Variable convertServices :
  Namespace → StackSpec → SwarmResourceBackend → SwarmServices * error.
Variable convertConfigs : Namespace → ConfigObjs → SwarmConfigs * error.
Variable convertSecrets : Namespace → SecretObjs → SwarmSecrets * error.
Variable convertNetworks :
  Namespace → NetworkObjs → gset string → NetworkCreates * ExternalNetworks.

Abbreviation convert :=
  (backend.convertToSwarmStackSpec DoSubstitution NewNamespace convertServices
     convertConfigs convertSecrets convertNetworks).

(** *** Declared networks *)

Lemma add_networks (networks : list string) (serviceNetworks : gset string) :
  foldl (λ serviceNetworks network, {[network]} ∪ serviceNetworks)
        serviceNetworks networks
  = list_to_set networks ∪ serviceNetworks.
Proof.
  revert serviceNetworks.
  induction networks as [|network rest IH]; intros serviceNetworks; simpl.
  - by rewrite union_empty_l_L.
  - rewrite IH, union_assoc_L. f_equal. apply union_comm_L.
Qed.

Lemma getServicesDeclaredNetworks_union (serviceConfigs : list ServiceConfig) :
  backend.getServicesDeclaredNetworks serviceConfigs
  = ⋃ (declaredNetworks <$> serviceConfigs).
Proof.
  unfold backend.getServicesDeclaredNetworks.
  assert (G : ∀ acc : gset string,
             foldl (λ serviceNetworks serviceConfig,
                      if decide (size (backend.Networks serviceConfig) = 0)
                      then {["default"]} ∪ serviceNetworks
                      else foldl (λ serviceNetworks network,
                                    {[network]} ∪ serviceNetworks)
                                 serviceNetworks
                                 (map_to_list (backend.Networks serviceConfig)).*1)
                   acc serviceConfigs
             = ⋃ (declaredNetworks <$> serviceConfigs) ∪ acc).
  { induction serviceConfigs as [|sc rest IH]; intros acc; simpl.
    - by rewrite union_empty_l_L.
    - rewrite IH. unfold declaredNetworks at 2.
      rewrite (union_comm_L _ (⋃ _)), <- union_assoc_L. f_equal.
      destruct (decide (size (backend.Networks sc) = 0)) as [Hz|Hnz].
      + apply map_size_empty_iff in Hz. by rewrite decide_True.
      + rewrite decide_False by (intros Hempty; by apply Hnz, map_size_empty_iff).
        rewrite add_networks. f_equal. apply set_eq. intros network.
        by rewrite (dom_alt (backend.Networks sc)). }
  rewrite G. by rewrite union_empty_r_L.
Qed.

(** C8: the set derived from the services is the union of the networks
    each declares, with ["default"] for a service that declares none; so a
    service without networks always contributes ["default"], the set is
    never empty when there is a service, and this set is the one handed to
    the network conversion. *)
Theorem declared_networks_default (serviceConfigs : list ServiceConfig) :
  backend.getServicesDeclaredNetworks serviceConfigs
  = ⋃ (declaredNetworks <$> serviceConfigs)
  ∧ (∀ network,
       network ∈ backend.getServicesDeclaredNetworks serviceConfigs
       ↔ ∃ serviceConfig,
           serviceConfig ∈ serviceConfigs
           ∧ (backend.Networks serviceConfig = ∅ ∧ network = "default"
              ∨ network ∈ dom (backend.Networks serviceConfig)))
  ∧ (∀ serviceConfig,
       serviceConfig ∈ serviceConfigs →
       backend.Networks serviceConfig = ∅ →
       "default" ∈ backend.getServicesDeclaredNetworks serviceConfigs)
  ∧ (serviceConfigs ≠ [] →
     backend.getServicesDeclaredNetworks serviceConfigs ≠ ∅)
  ∧ (∀ ctx b spec log substituted converted,
       DoSubstitution ctx spec = (substituted, None) →
       backend.SpecServices substituted = serviceConfigs →
       (convert ctx b spec log).1 = (converted, None) →
       backend.SwarmNetworks_ converted
       = (convertNetworks (NewNamespace (backend.MetaName (backend.SpecMetadata spec)))
            (backend.SpecNetworks substituted)
            (⋃ (declaredNetworks <$> serviceConfigs))).1).
Proof.
  assert (Hin : ∀ network,
       network ∈ backend.getServicesDeclaredNetworks serviceConfigs
       ↔ ∃ serviceConfig,
           serviceConfig ∈ serviceConfigs
           ∧ (backend.Networks serviceConfig = ∅ ∧ network = "default"
              ∨ network ∈ dom (backend.Networks serviceConfig))).
  { intros network. rewrite getServicesDeclaredNetworks_union, elem_of_union_list.
    split.
    - intros (X & HX & Hnet). apply list_elem_of_fmap in HX as (sc & -> & Hsc).
      exists sc. split; [done|]. unfold declaredNetworks in Hnet.
      case_decide as Hempty.
      + left. split; [done|]. by apply elem_of_singleton in Hnet.
      + by right.
    - intros (sc & Hsc & Hcase). exists (declaredNetworks sc).
      split; [apply list_elem_of_fmap; by exists sc|].
      unfold declaredNetworks. destruct Hcase as [[Hempty ->]|Hdom].
      + rewrite decide_True by done. by apply elem_of_singleton.
      + rewrite decide_False; [done|]. intros Hempty. rewrite Hempty in Hdom.
        by rewrite dom_empty_L in Hdom. }
  split; [apply getServicesDeclaredNetworks_union|]. split; [done|].
  split; [|split].
  - intros sc Hsc Hempty. apply Hin. exists sc. split; [done|]. by left.
  - intros Hne Hnone. destruct serviceConfigs as [|sc rest]; [done|].
    destruct (decide (backend.Networks sc = ∅)) as [Hempty|Hsome].
    + assert ("default" ∈ backend.getServicesDeclaredNetworks (sc :: rest)) as Hd.
      { apply Hin. exists sc. split; [by left|]. by left. }
      rewrite Hnone in Hd. by apply not_elem_of_empty in Hd.
    + apply map_choose in Hsome as (network & attachment & Hlook).
      assert (network ∈ backend.getServicesDeclaredNetworks (sc :: rest)) as Hd.
      { apply Hin. exists sc. split; [by left|]. right. by apply elem_of_dom_2 in Hlook. }
      rewrite Hnone in Hd. by apply not_elem_of_empty in Hd.
  - intros ctx b spec log substituted converted Hsub <- Hconv.
    unfold backend.convertToSwarmStackSpec, backend.call, mbind, backend.traced_bind,
      mret, backend.traced_ret in Hconv.
    rewrite Hsub in Hconv.
    destruct (convertServices _ _ _) as [services [e|]]; [done|].
    destruct (convertConfigs _ _) as [configs [e|]]; [done|].
    destruct (convertSecrets _ _) as [secrets [e|]]; [done|].
    rewrite getServicesDeclaredNetworks_union in Hconv.
    destruct (convertNetworks _ _ _) as [networkCreates external].
    simpl in Hconv. by injection Hconv as <-.
Qed.

(** *** The pipeline *)

Local Ltac run_pipeline :=
  unfold backend.convertToSwarmStackSpec, backend.call, mbind, backend.traced_bind,
    mret, backend.traced_ret.

(** C7, as the code has it: when substitution, service conversion, config
    conversion or secret conversion fails, no later stage is called and the
    zero-value spec is returned; the error of a failed service, config or
    secret conversion is returned behind a prefix naming the conversion,
    while the error of a failed substitution is returned as it is. *)
Theorem convert_aborts_at_failing_stage ctx b (spec : StackSpec)
    (log : list backend.stage) :
  let namespace := NewNamespace (backend.MetaName (backend.SpecMetadata spec)) in
  (∀ substituted err,
     DoSubstitution ctx spec = (substituted, Some err) →
     convert ctx b spec log
     = (zero, Some err, (log ++ [backend.Substitution])%list))
  ∧ (∀ substituted services err,
     DoSubstitution ctx spec = (substituted, None) →
     convertServices namespace substituted b = (services, Some err) →
     convert ctx b spec log
     = (zero, Some ("failed to convert services : " +:+ err),
        (log ++ [backend.Substitution; backend.ServiceConversion])%list))
  ∧ (∀ substituted services configs err,
     DoSubstitution ctx spec = (substituted, None) →
     convertServices namespace substituted b = (services, None) →
     convertConfigs namespace (backend.SpecConfigs substituted) = (configs, Some err) →
     convert ctx b spec log
     = (zero, Some ("failed to convert configs: " +:+ err),
        (log ++ [backend.Substitution; backend.ServiceConversion;
                 backend.ConfigConversion])%list))
  ∧ (∀ substituted services configs secrets err,
     DoSubstitution ctx spec = (substituted, None) →
     convertServices namespace substituted b = (services, None) →
     convertConfigs namespace (backend.SpecConfigs substituted) = (configs, None) →
     convertSecrets namespace (backend.SpecSecrets substituted) = (secrets, Some err) →
     convert ctx b spec log
     = (zero, Some ("failed to convert secrets: " +:+ err),
        (log ++ [backend.Substitution; backend.ServiceConversion;
                 backend.ConfigConversion; backend.SecretConversion])%list)).
Proof.
  intros namespace. subst namespace. repeat split.
  - intros substituted err Hsub. run_pipeline. by rewrite Hsub.
  - intros substituted services err Hsub Hsvc. run_pipeline.
    rewrite Hsub, Hsvc. by rewrite <- app_assoc.
  - intros substituted services configs err Hsub Hsvc Hcfg. run_pipeline.
    rewrite Hsub, Hsvc, Hcfg. by rewrite <- !app_assoc.
  - intros substituted services configs secrets err Hsub Hsvc Hcfg Hsec. run_pipeline.
    rewrite Hsub, Hsvc, Hcfg, Hsec. by rewrite <- !app_assoc.
Qed.

End ConversionProperties.

(** ** The statements on the sample cluster *)

Lemma string_length_app (s1 s2 : string) :
  String.length (s1 +:+ s2) = String.length s1 + String.length s2.
Proof. induction s1 as [|c s1 IH]; simpl; [done | by rewrite IH]. Qed.

Lemma not_wraps_self (s : string) : ¬ wraps s s.
Proof.
  intros (prefix & Hne & Heq). apply (f_equal String.length) in Heq.
  rewrite string_length_app in Heq. destruct prefix; [done | simpl in Heq; lia].
Qed.

(** With three tasks of [web] in states running, running and failed, two
    tasks are running and the status records 0. *)
Lemma populateStackStatus_currentTasks_sample :
  runningTasks sample.web [sample.running1; sample.running2; sample.failed3] = 2%Z
  ∧ types.CurrentTasks
      <$> index (types.ServicesStatus (types.Status sample.populatedA)) "web"
    = Some 0%Z.
Proof.
  split; [reflexivity|].
  apply (populateStackStatus_currentTasks sample.stackA
           [sample.running1; sample.running2; sample.failed3]
           [sample.web; sample.agent] [] [] 5%N 0%Z sample.populatedA None 2%Z
           [] sample.web [sample.agent]).
  - vm_compute. reflexivity.
  - reflexivity.
  - change ("web" ∉ ["agent"]). apply not_elem_of_cons.
    split; [discriminate | apply not_elem_of_nil].
Defined.

(** Two stacks without resources come back as four elements. *)
Lemma getStackStatuses_doubles_sample :
  ∃ populated,
    sample.statusesOfIdle
    = (replicate 2 (zero : types.Stack) ++ populated)%list
    ∧ Forall2 (λ stack stack',
                 types.ID stack' = types.ID stack
                 ∧ is_Some (types.Services (types.Resources stack')))
              [sample.stackA; sample.stackB] populated
    ∧ length sample.statusesOfIdle = 4.
Proof.
  apply (getStackStatuses_doubles sample.StackLabel sample.idle
           [sample.stackA; sample.stackB] sample.statusesOfIdle 0%Z 0%Z).
  - discriminate.
  - vm_compute. reflexivity.
Defined.

(** The tasks of the sample cluster, one of them of stack [z], joined for
    [a] and [b]: the keys are [a] and [b]. *)
Lemma join_key_set_exact_sample :
  ∃ idsmap,
    backend.getSwarmTasks sample.StackLabel sample.cluster ["a"; "b"]
    = (Some idsmap, None)
    ∧ dom idsmap = list_to_set ["a"; "b"].
Proof.
  apply (proj1 (join_key_set_exact sample.StackLabel sample.cluster ["a"; "b"])
           [sample.running1; sample.running2; sample.failed3; sample.stray]).
  - reflexivity.
  - repeat constructor; eexists; vm_compute; reflexivity.
Defined.

(** For no IDs the filter is the existence filter, not the empty one; for
    the single ID [""] it is the empty filter, not an equality filter. *)
Lemma stackLabelFilters_not_as_specified :
  backend.stackLabelFilters sample.StackLabel []
  = toArgs (LabelExists sample.StackLabel)
  ∧ backend.stackLabelFilters sample.StackLabel []
    ≠ toArgs (filterFor_spec sample.StackLabel [])
  ∧ backend.stackLabelFilters sample.StackLabel [""] = toArgs NoConstraint
  ∧ backend.stackLabelFilters sample.StackLabel [""]
    ≠ toArgs (filterFor_spec sample.StackLabel [""]).
Proof.
  split; [vm_compute; reflexivity|]. split.
  { intros H. apply (f_equal filters.Len) in H. vm_compute in H. discriminate. }
  split; [vm_compute; reflexivity|].
  intros H. apply (f_equal filters.Len) in H. vm_compute in H. discriminate.
Qed.

(** One ID: the backend answers under the equality filter only.  Two IDs:
    under the existence filter only; the task of stack [z] is dropped. *)
Lemma stackLabelFilters_cases_sample :
  backend.stackLabelFilters sample.StackLabel ["a"]
  = toArgs (LabelEquals sample.StackLabel "a")
  ∧ backend.stackLabelFilters sample.StackLabel ["a"; "b"]
    = toArgs (LabelExists sample.StackLabel)
  ∧ backend_first.getSwarmTasks sample.StackLabel
      (sample.answering (toArgs (LabelEquals sample.StackLabel "a")) [sample.running1])
      ["a"]
    = (Some {["a" := [sample.running1]]}, None)
  ∧ backend_first.getSwarmTasks sample.StackLabel
      (sample.answering (toArgs (LabelExists sample.StackLabel))
         [sample.running1; sample.stray])
      ["a"; "b"]
    = (Some {["a" := [sample.running1]; "b" := []]}, None)
  ∧ backend_first.getSwarmTasks sample.StackLabel
      (sample.answering (toArgs (LabelEquals sample.StackLabel "a")) [sample.running1])
      ["a"; "b"]
    = (Some {["a" := []; "b" := []]},
       Some "unable to get tasks for stacks [a b]: unexpected filter").
Proof.
  split; [exact (proj1 (stackLabelFilters_cases sample.StackLabel ["a"]))|].
  split; [exact (proj1 (stackLabelFilters_cases sample.StackLabel ["a"; "b"]))|].
  split; [|split].
  - rewrite (proj2 (proj2 (stackLabelFilters_cases sample.StackLabel ["a"])));
      [vm_compute; reflexivity | discriminate].
  - rewrite (proj2 (proj2 (stackLabelFilters_cases sample.StackLabel ["a"; "b"])));
      [vm_compute; reflexivity | discriminate].
  - rewrite (proj2 (proj2 (stackLabelFilters_cases sample.StackLabel ["a"; "b"])));
      [vm_compute; reflexivity | discriminate].
Defined.

(** The unlabelled task comes second: the join returns the error and, with
    it, the map holding the first task. *)
Lemma join_returns_map_with_error :
  backend.getSwarmTasks sample.StackLabel sample.inconsistent ["a"]
  = (Some {["a" := [sample.running1]]},
     Some "internal error: found task with no stack label").
Proof. vm_compute. reflexivity. Qed.

Lemma join_fails_fast_with_map_sample :
  (∃ idsmap,
     backend.getSwarmTasks sample.StackLabel sample.inconsistent ["a"]
     = (Some idsmap, Some "internal error: found task with no stack label")
     ∧ idsmap !! "a" = Some [sample.running1])
  ∧ (∃ idsmap,
       backend.getSwarmTasks sample.StackLabel sample.cluster ["a"]
       = (Some idsmap, None)
       ∧ idsmap !! "a" = Some [sample.running1; sample.running2; sample.failed3]
       ∧ idsmap !! "z" = None).
Proof.
  split.
  - destruct (proj2 (proj1 (join_fails_fast_with_map sample.StackLabel
                              sample.inconsistent ["a"])
                       [sample.running1; sample.unlabelled; sample.running2]
                       eq_refl)
                [sample.running1] sample.unlabelled [sample.running2] eq_refl)
      as (idsmap & Heq & Hgrouped).
    + repeat constructor. eexists. vm_compute. reflexivity.
    + reflexivity.
    + exists idsmap. split; [exact Heq|]. rewrite (Hgrouped "a"). reflexivity.
  - destruct (proj1 (proj1 (join_fails_fast_with_map sample.StackLabel
                              sample.cluster ["a"])
                       [sample.running1; sample.running2; sample.failed3; sample.stray]
                       eq_refl))
      as (idsmap & Heq & Hgrouped).
    + repeat constructor; eexists; vm_compute; reflexivity.
    + exists idsmap. split; [exact Heq|].
      rewrite (Hgrouped "a"), (Hgrouped "z"). split; reflexivity.
Defined.

(** [web], replicated with 3 replicas, on 5 nodes: 3; [agent], global: 5. *)
Lemma desired_tasks_by_mode_sample :
  (∃ status,
     index (types.ServicesStatus (types.Status sample.populatedA)) "web" = Some status
     ∧ Some 3%N = Some (types.DesiredTasks status))
  ∧ (∃ status,
       index (types.ServicesStatus (types.Status sample.populatedA)) "agent"
       = Some status
       ∧ types.DesiredTasks status = 5%N)
  ∧ backend.getNodeCount sample.cluster = (5%N, None).
Proof.
  destruct desired_tasks_by_mode as [Hpop Hnodes].
  assert (Hrun : backend.populateStackStatus sample.stackA
                   [sample.running1; sample.running2; sample.failed3]
                   [sample.web; sample.agent] [] [] 5%N 0%Z
                 = Returns (sample.populatedA, None, 2%Z))
    by (vm_compute; reflexivity).
  split; [|split].
  - apply (Hpop _ _ _ _ _ _ _ _ _ _ [] sample.web [sample.agent] Hrun eq_refl).
    change ("web" ∉ ["agent"]). apply not_elem_of_cons.
    split; [discriminate | apply not_elem_of_nil].
  - apply (Hpop _ _ _ _ _ _ _ _ _ _ [sample.web] sample.agent [] Hrun eq_refl).
    apply not_elem_of_nil.
  - apply (Hnodes sample.cluster (sample.nodes 5)). reflexivity.
Defined.

(** A failed substitution: the zero-value spec, and the substitution's own
    message, with nothing in front of it. *)
Lemma substitution_error_not_wrapped :
  backend.convertToSwarmStackSpec sample.substitutionFails sample.namespaceOf
    sample.servicesConverted sample.namesConverted sample.namesConverted
    sample.networksConverted tt sample.idle sample.composeSpec []
  = (zero, Some "variable TAG is not set", [backend.Substitution])
  ∧ ¬ wraps "variable TAG is not set" "variable TAG is not set".
Proof. split; [reflexivity | apply not_wraps_self]. Qed.

(** A failed service conversion and a failed secret conversion. *)
Lemma convert_aborts_at_failing_stage_sample :
  backend.convertToSwarmStackSpec sample.substitutes sample.namespaceOf
    sample.servicesFail sample.namesConverted sample.namesConverted
    sample.networksConverted tt sample.idle sample.composeSpec []
  = (zero, Some "failed to convert services : secret token not found",
     [backend.Substitution; backend.ServiceConversion])
  ∧ backend.convertToSwarmStackSpec sample.substitutes sample.namespaceOf
      sample.servicesConverted sample.namesConverted sample.namesFail
      sample.networksConverted tt sample.idle sample.composeSpec []
    = (zero, Some "failed to convert secrets: invalid name",
       [backend.Substitution; backend.ServiceConversion;
        backend.ConfigConversion; backend.SecretConversion]).
Proof.
  split.
  - apply (proj1 (proj2 (convert_aborts_at_failing_stage sample.substitutes
                           sample.namespaceOf sample.servicesFail
                           sample.namesConverted sample.namesConverted
                           sample.networksConverted tt sample.idle
                           sample.composeSpec []))
             sample.composeSpec []); reflexivity.
  - apply (proj2 (proj2 (proj2 (convert_aborts_at_failing_stage sample.substitutes
                           sample.namespaceOf sample.servicesConverted
                           sample.namesConverted sample.namesFail
                           sample.networksConverted tt sample.idle
                           sample.composeSpec [])))
             sample.composeSpec ["demo_web"; "demo_db"] [] []); reflexivity.
Defined.

(** [web] declares no network and [db] declares [backnet]. *)
Lemma declared_networks_default_sample :
  "default" ∈ backend.getServicesDeclaredNetworks
                (backend.SpecServices sample.composeSpec)
  ∧ backend.getServicesDeclaredNetworks (backend.SpecServices sample.composeSpec)
    = {["default"; "backnet"]}.
Proof.
  destruct (declared_networks_default sample.substitutes sample.namespaceOf
              sample.servicesConverted sample.namesConverted sample.namesConverted
              sample.networksConverted (backend.SpecServices sample.composeSpec))
    as (Hunion & _ & Hdefault & _).
  split.
  - apply (Hdefault {| backend.ServiceName := "web"; backend.Networks := ∅ |}).
    + left.
    + reflexivity.
  - rewrite Hunion. vm_compute. reflexivity.
Defined.

(** A [nil] status map or a [nil] replica count makes the call panic; with
    both in place it returns. *)
Lemma populateStackStatus_partial_sample :
  ¬ completes (backend.populateStackStatus sample.stackNil [] [sample.web] [] []
                 5%N 0%Z)
  ∧ ¬ completes (backend.populateStackStatus sample.stackA [] [sample.unset] [] []
                   5%N 0%Z)
  ∧ completes (backend.populateStackStatus sample.stackA [] [sample.web; sample.agent]
                 [] [] 5%N 0%Z).
Proof.
  split; [|split].
  - intros Hc.
    apply (populateStackStatus_partial sample.stackNil [] [sample.web] [] [] 5%N 0%Z)
      in Hc as [[statuses Hsome] _]; [discriminate Hsome | discriminate].
  - intros Hc.
    apply (populateStackStatus_partial sample.stackA [] [sample.unset] [] [] 5%N 0%Z)
      in Hc as [_ Hall]; [|discriminate].
    apply Forall_cons in Hall as [Hunset _].
    destruct (Hunset _ eq_refl) as [replicas Hsome]. discriminate Hsome.
  - apply (populateStackStatus_partial sample.stackA [] [sample.web; sample.agent]
             [] [] 5%N 0%Z); [discriminate|].
    split; [by eexists|].
    repeat constructor; intros replicated Hmode; vm_compute in Hmode;
      simplify_eq; by eexists.
Defined.

(** * Further properties *)

(** ** The joins, on every answer of the query *)

Section MoreJoinProperties.

Variable StackLabel : string.

Section Grouping.

Context {R : Type}.
Variable labels : R → GoMap string string.
Variable msg : string.

Abbreviation stackOf := (λ r : R, index (labels r) StackLabel).
Abbreviation group := (backend.groupByStack StackLabel labels msg).

(** A list of resources is labelled throughout or has a first unlabelled
    element. *)
Lemma labelled_or_first_unlabelled (resources : list R) :
  Forall (λ r, is_Some (stackOf r)) resources
  ∨ ∃ before r after,
      resources = (before ++ r :: after)%list
      ∧ Forall (λ r, is_Some (stackOf r)) before
      ∧ stackOf r = None.
Proof.
  induction resources as [|r rest IH]; [by left|].
  destruct (stackOf r) as [stackID|] eqn:Hr.
  - destruct IH as [Hall|(before & r' & after & -> & Hall & Hr')].
    + left. constructor; [by rewrite Hr | done].
    + right. exists (r :: before), r', after.
      split; [done|]. split; [|done]. constructor; [by rewrite Hr | done].
  - right. by exists [], r, rest.
Qed.

Lemma grouping_errs_on_unlabelled (stackIDs : list string) (resources : list R) :
  ErrsOnUnlabelled StackLabel labels msg resources
    (backend.withMap (group resources (backend.newIDsMap stackIDs))).
Proof.
  unfold ErrsOnUnlabelled.
  destruct (labelled_or_first_unlabelled resources)
    as [Hall|(before & r & after & -> & Hall & Hr)].
  - destruct (join_labelled StackLabel labels msg stackIDs resources Hall)
      as (idsmap & -> & _). simpl. split; [done | by left].
  - destruct (join_unlabelled StackLabel labels msg stackIDs before after r Hall Hr)
      as (idsmap & -> & _). simpl. split; [|by right].
    split; [done|]. intros Hlab. apply Forall_app in Hlab as [_ Hlab].
    apply Forall_cons in Hlab as [[? Hsome] _]. congruence.
Qed.

Lemma grouping_filed_by_label (stackIDs : list string) (resources : list R) :
  FiledByLabel StackLabel labels stackIDs resources
    (backend.withMap (group resources (backend.newIDsMap stackIDs))).
Proof.
  unfold FiledByLabel.
  assert (∃ idsmap seen after,
            (backend.withMap (group resources (backend.newIDsMap stackIDs))).1
            = Some idsmap
            ∧ resources = (seen ++ after)%list
            ∧ ∀ stackID,
                idsmap !! stackID
                = if decide (stackID ∈ stackIDs)
                  then Some (filter (λ r, stackOf r = Some stackID) seen)
                  else None) as (idsmap & seen & after & Hmap & -> & Hlook).
  { destruct (labelled_or_first_unlabelled resources)
      as [Hall|(before & r & after & -> & Hall & Hr)].
    - destruct (join_labelled StackLabel labels msg stackIDs resources Hall)
        as (idsmap & -> & _ & Hlook).
      exists idsmap, resources, []. by rewrite app_nil_r.
    - destruct (join_unlabelled StackLabel labels msg stackIDs before after r Hall Hr)
        as (idsmap & -> & _ & Hlook).
      by exists idsmap, before, (r :: after). }
  exists idsmap. split; [done|]. intros stackID stackRs Hrs.
  rewrite Hlook in Hrs. case_decide as Hin; [|done]. injection Hrs as <-.
  split; [done|]. split.
  - apply sublist_inserts_r, sublist_filter.
  - apply Forall_forall. intros r Hr. by apply list_elem_of_filter in Hr as [? _].
Qed.

End Grouping.

Abbreviation labelled labels :=
  (Forall (λ r, is_Some (index (labels r) StackLabel))).

(** X1: once its query has answered, each join reports an error exactly
    when some resource lacks the stack label, and that error is the join's
    internal-error message. *)
Theorem join_errs_iff_unlabelled (b : SwarmResourceBackend) (stackIDs : list string) :
  (∀ tasks,
     GetTasks b (backend.stackLabelFilters StackLabel stackIDs) = (tasks, None) →
     ErrsOnUnlabelled StackLabel backend.taskLabels
       "internal error: found task with no stack label"
       tasks (backend.getSwarmTasks StackLabel b stackIDs))
  ∧ (∀ services,
     GetServices b (backend.stackLabelFilters StackLabel stackIDs) = (services, None) →
     ErrsOnUnlabelled StackLabel backend.serviceLabels
       "internal error: found service with no stack label"
       services (backend.getSwarmServices StackLabel b stackIDs))
  ∧ (∀ secrets,
     GetSecrets b (backend.stackLabelFilters StackLabel stackIDs) = (secrets, None) →
     ErrsOnUnlabelled StackLabel backend.secretLabels
       "internal error: found secret with no stack label"
       secrets (backend.getSwarmSecrets StackLabel b stackIDs))
  ∧ (∀ configs,
     GetConfigs b (backend.stackLabelFilters StackLabel stackIDs) = (configs, None) →
     ErrsOnUnlabelled StackLabel backend.configLabels
       "internal error: found service with no stack label"
       configs (backend.getSwarmConfigs StackLabel b stackIDs)).
Proof.
  split; [|split; [|split]]; intros resources Hquery;
    unfold backend.getSwarmTasks, backend.getSwarmServices,
      backend.getSwarmSecrets, backend.getSwarmConfigs;
    rewrite Hquery; apply grouping_errs_on_unlabelled.
Qed.

(** X2: whether or not it ends in an error, a join whose query has answered
    returns a map in which every list sits under a requested ID and holds,
    in the order received, only resources of the answer that carry that ID
    as their stack label. *)
Theorem join_files_by_label (b : SwarmResourceBackend) (stackIDs : list string) :
  (∀ tasks,
     GetTasks b (backend.stackLabelFilters StackLabel stackIDs) = (tasks, None) →
     FiledByLabel StackLabel backend.taskLabels stackIDs tasks
       (backend.getSwarmTasks StackLabel b stackIDs))
  ∧ (∀ services,
     GetServices b (backend.stackLabelFilters StackLabel stackIDs) = (services, None) →
     FiledByLabel StackLabel backend.serviceLabels stackIDs services
       (backend.getSwarmServices StackLabel b stackIDs))
  ∧ (∀ secrets,
     GetSecrets b (backend.stackLabelFilters StackLabel stackIDs) = (secrets, None) →
     FiledByLabel StackLabel backend.secretLabels stackIDs secrets
       (backend.getSwarmSecrets StackLabel b stackIDs))
  ∧ (∀ configs,
     GetConfigs b (backend.stackLabelFilters StackLabel stackIDs) = (configs, None) →
     FiledByLabel StackLabel backend.configLabels stackIDs configs
       (backend.getSwarmConfigs StackLabel b stackIDs)).
Proof.
  split; [|split; [|split]]; intros resources Hquery;
    unfold backend.getSwarmTasks, backend.getSwarmServices,
      backend.getSwarmSecrets, backend.getSwarmConfigs;
    rewrite Hquery; apply grouping_filed_by_label.
Qed.


(** The message does not matter to the map a grouping returns, nor to
    whether it reports an error. *)
Lemma groupByStack_msg {R} (labels : R → GoMap string string) (msg msg' : string)
    (resources : list R) (idsmap : gmap string (list R)) :
  (backend.groupByStack StackLabel labels msg resources idsmap).1
  = (backend.groupByStack StackLabel labels msg' resources idsmap).1
  ∧ ((backend.groupByStack StackLabel labels msg resources idsmap).2 = None
     ↔ (backend.groupByStack StackLabel labels msg' resources idsmap).2 = None).
Proof.
  revert idsmap. induction resources as [|r rest IH]; intros idsmap; simpl; [done|].
  destruct (index (labels r) StackLabel) as [stackID|]; [|done].
  destruct (idsmap !! stackID); apply IH.
Qed.

(** X3: [getSwarmTasks] of the first listing returns, on every path (no
    IDs, failed query, unlabelled task), a non-[nil] map whose keys are
    exactly the requested IDs; [getSwarmTasks] of the second listing returns
    a [nil] map when the query fails. *)
Theorem first_listing_always_keys (b : SwarmResourceBackend) (stackIDs : list string) :
  (∃ idsmap,
     (backend_first.getSwarmTasks StackLabel b stackIDs).1 = Some idsmap
     ∧ dom idsmap = list_to_set stackIDs)
  ∧ (∀ tasks err,
       GetTasks b (backend.stackLabelFilters StackLabel stackIDs) = (tasks, Some err) →
       (backend.getSwarmTasks StackLabel b stackIDs).1 = None).
Proof.
  split.
  - unfold backend_first.getSwarmTasks.
    destruct stackIDs as [|stackID rest] eqn:Hids; [by exists ∅|]. rewrite <- Hids.
    destruct (GetTasks b _) as [tasks [err|]]; simpl.
    + eexists. split; [done|]. apply newIDsMap_dom.
    + eexists. split; [done|]. by rewrite groupByStack_dom, newIDsMap_dom.
  - intros tasks err Hquery. unfold backend.getSwarmTasks. by rewrite Hquery.
Qed.

(** X4: when the task query succeeds, the two listings of [getSwarmTasks]
    return the same map; for at least one ID they report an error in the
    same cases; and when every task is labelled they return the same
    result. *)
Theorem listings_agree (b : SwarmResourceBackend) (stackIDs : list string)
    (tasks : list swarm.Task) :
  GetTasks b (backend.stackLabelFilters StackLabel stackIDs) = (tasks, None) →
  (backend_first.getSwarmTasks StackLabel b stackIDs).1
  = (backend.getSwarmTasks StackLabel b stackIDs).1
  ∧ (stackIDs ≠ [] →
     ((backend_first.getSwarmTasks StackLabel b stackIDs).2 = None
      ↔ (backend.getSwarmTasks StackLabel b stackIDs).2 = None))
  ∧ (labelled backend.taskLabels tasks →
     backend_first.getSwarmTasks StackLabel b stackIDs
     = backend.getSwarmTasks StackLabel b stackIDs).
Proof.
  intros Hquery.
  assert (Hsecond : backend.getSwarmTasks StackLabel b stackIDs
                    = backend.withMap
                        (backend.groupByStack StackLabel backend.taskLabels
                           "internal error: found task with no stack label"
                           tasks (backend.newIDsMap stackIDs))).
  { unfold backend.getSwarmTasks. by rewrite Hquery. }
  destruct stackIDs as [|stackID rest] eqn:Hids.
  - rewrite Hsecond. unfold backend_first.getSwarmTasks, backend.withMap. cbn [fst snd].
    assert ((backend.groupByStack StackLabel backend.taskLabels
               "internal error: found task with no stack label" tasks
               (backend.newIDsMap [])).1 = ∅) as Hempty.
    { apply dom_empty_inv_L. by rewrite groupByStack_dom, newIDsMap_dom. }
    split; [by rewrite Hempty|]. split; [done|]. intros Hall.
    destruct (groupByStack_labelled StackLabel backend.taskLabels
                "internal error: found task with no stack label" tasks
                (backend.newIDsMap []) Hall)
      as [Herr _].
    by rewrite Hempty, Herr.
  - rewrite <- Hids in *.
    assert (Hfirst : backend_first.getSwarmTasks StackLabel b stackIDs
                     = backend.withMap
                         (backend.groupByStack StackLabel backend.taskLabels
                            "internal error: found task with no stack label despite label"
                            tasks (backend.newIDsMap stackIDs))).
    { unfold backend_first.getSwarmTasks, backend.stackLabelFilters in *.
      rewrite Hids in *. destruct rest; by rewrite Hquery. }
    rewrite Hfirst, Hsecond. unfold backend.withMap. simpl.
    destruct (groupByStack_msg backend.taskLabels
                "internal error: found task with no stack label despite label"
                "internal error: found task with no stack label"
                tasks (backend.newIDsMap stackIDs)) as [Hmap Herr].
    split; [by rewrite Hmap|]. split; [done|]. intros Hall.
    destruct (groupByStack_labelled StackLabel backend.taskLabels
                "internal error: found task with no stack label despite label"
                tasks (backend.newIDsMap stackIDs) Hall) as [Herr1 _].
    rewrite Hmap, Herr1. f_equal. symmetry. by apply Herr.
Qed.

(** Each join that reports no error returns a map with every requested ID,
    and lists made of resources the query answered. *)
Lemma join_ok_keys (b : SwarmResourceBackend) (stackIDs : list string) :
  ((backend.getSwarmTasks StackLabel b stackIDs).2 = None →
   ∃ idsmap, (backend.getSwarmTasks StackLabel b stackIDs).1 = Some idsmap
             ∧ dom idsmap = list_to_set stackIDs)
  ∧ ((backend.getSwarmServices StackLabel b stackIDs).2 = None →
     ∃ idsmap services,
       (backend.getSwarmServices StackLabel b stackIDs).1 = Some idsmap
       ∧ dom idsmap = list_to_set stackIDs
       ∧ GetServices b (backend.stackLabelFilters StackLabel stackIDs) = (services, None)
       ∧ ∀ stackID stackRs, idsmap !! stackID = Some stackRs → stackRs ⊆ services)
  ∧ ((backend.getSwarmSecrets StackLabel b stackIDs).2 = None →
     ∃ idsmap, (backend.getSwarmSecrets StackLabel b stackIDs).1 = Some idsmap
               ∧ dom idsmap = list_to_set stackIDs)
  ∧ ((backend.getSwarmConfigs StackLabel b stackIDs).2 = None →
     ∃ idsmap, (backend.getSwarmConfigs StackLabel b stackIDs).1 = Some idsmap
               ∧ dom idsmap = list_to_set stackIDs).
Proof.
  unfold backend.getSwarmTasks, backend.getSwarmServices,
    backend.getSwarmSecrets, backend.getSwarmConfigs.
  split; [|split; [|split]].
  - destruct (GetTasks b _) as [rs [e|]]; [done|]. intros _. eexists.
    split; [done|]. by rewrite groupByStack_dom, newIDsMap_dom.
  - destruct (GetServices b _) as [rs [e|]] eqn:Hquery; [done|]. intros _.
    destruct (grouping_filed_by_label backend.serviceLabels
                "internal error: found service with no stack label" stackIDs rs)
      as (idsmap & Hmap & Hfiled).
    exists idsmap, rs. split; [done|]. split.
    + simpl in Hmap. injection Hmap as <-. by rewrite groupByStack_dom, newIDsMap_dom.
    + split; [done|]. intros stackID stackRs Hrs.
      apply sublist_subseteq. by apply (Hfiled stackID stackRs Hrs).
  - destruct (GetSecrets b _) as [rs [e|]]; [done|]. intros _. eexists.
    split; [done|]. by rewrite groupByStack_dom, newIDsMap_dom.
  - destruct (GetConfigs b _) as [rs [e|]]; [done|]. intros _. eexists.
    split; [done|]. by rewrite groupByStack_dom, newIDsMap_dom.
Qed.


(** ** [getStackStatuses] as a whole *)

Lemma servicesLoop_panics (services : list swarm.Service) (tasks : list swarm.Task)
    numNodes (stack : types.Stack) curentTasks msg :
  backend.servicesLoop services tasks numNodes stack curentTasks = Panics msg →
  msg = "assignment to entry in nil map"
  ∨ msg = "runtime error: invalid memory address or nil pointer dereference".
Proof.
  revert stack curentTasks.
  induction services as [|service rest IH]; intros stack curentTasks; simpl; [done|].
  unfold backend.desiredTasksOf.
  destruct (swarm.Replicated _) as [[[replicas|]]|].
  - destruct (types.ServicesStatus _); [apply IH | intros [= <-]; by left].
  - intros [= <-]. by right.
  - destruct (types.ServicesStatus _); [apply IH | intros [= <-]; by left].
Qed.

Lemma populateStackStatus_completes (stack : types.Stack) tasks services secrets
    configs numNodes curentTasks :
  completes (backend.populateStackStatus stack tasks services secrets configs
               numNodes curentTasks)
  ↔ (services = [] ∨ is_Some (types.ServicesStatus (types.Status stack)))
    ∧ Forall replicasSet services.
Proof.
  unfold backend.populateStackStatus.
  pose proof (servicesLoop_completes services tasks numNodes
                {| types.ID := types.ID stack;
                   types.Resources :=
                     {| types.Services := Some (backend.stackServices services);
                        types.Secrets := Some (backend.stackSecrets secrets);
                        types.Configs := Some (backend.stackConfigs configs) |};
                   types.Status := types.Status stack |} curentTasks) as Hc.
  by destruct (backend.servicesLoop _ _ _ _ _) as [[stack1 c1]|].
Qed.

Lemma stacksLoop_panics taskMap serviceMap secretMap configMap nodeCount
    (stacks newStacks : list types.Stack) curentTasks msg :
  binds_all stacks taskMap serviceMap secretMap configMap →
  backend.stacksLoop taskMap serviceMap secretMap configMap nodeCount stacks newStacks
    curentTasks = Panics msg →
  msg = "assignment to entry in nil map"
  ∨ msg = "runtime error: invalid memory address or nil pointer dereference".
Proof.
  revert newStacks curentTasks.
  induction stacks as [|stack rest IH]; intros newStacks curentTasks Hall; simpl; [done|].
  apply Forall_cons in Hall as [([ts ->] & [ss ->] & [cs ->] & [fs ->]) Hrest].
  unfold backend.populateStackStatus.
  destruct (backend.servicesLoop _ _ _ _ _) as [[stack1 c1]|msg1] eqn:Hloop.
  - by apply IH.
  - intros [= <-]. by eapply servicesLoop_panics.
Qed.

Lemma stacksLoop_completes taskMap serviceMap secretMap configMap nodeCount
    (stacks newStacks : list types.Stack) curentTasks :
  binds_all stacks taskMap serviceMap secretMap configMap →
  Forall (λ stack, is_Some (types.ServicesStatus (types.Status stack))) stacks →
  (∀ stackID stackServices,
     index serviceMap stackID = Some stackServices → Forall replicasSet stackServices) →
  completes (backend.stacksLoop taskMap serviceMap secretMap configMap nodeCount stacks
               newStacks curentTasks).
Proof.
  revert newStacks curentTasks.
  induction stacks as [|stack rest IH]; intros newStacks curentTasks Hall Hmaps Hsafe;
    simpl; [done|].
  apply Forall_cons in Hall as [([ts ->] & [ss Hss] & [cs ->] & [fs ->]) Hrest].
  apply Forall_cons in Hmaps as [Hmap Hmaps]. rewrite Hss.
  pose proof (populateStackStatus_completes stack ts ss cs fs nodeCount curentTasks) as Hc.
  destruct (backend.populateStackStatus _ _ _ _ _ _ _) as [[[stack1 e1] c1]|] eqn:Hpop.
  - apply populateStackStatus_returns in Hpop as (-> & _ & _). by apply IH.
  - apply Hc. split; [by right|]. by eapply Hsafe.
Qed.

Lemma joins_bind_all (b : SwarmResourceBackend) (stacks : list types.Stack)
    taskMap serviceMap secretMap configMap :
  backend.getSwarmTasks StackLabel b (types.ID <$> stacks) = (taskMap, None) →
  backend.getSwarmServices StackLabel b (types.ID <$> stacks) = (serviceMap, None) →
  backend.getSwarmSecrets StackLabel b (types.ID <$> stacks) = (secretMap, None) →
  backend.getSwarmConfigs StackLabel b (types.ID <$> stacks) = (configMap, None) →
  binds_all stacks taskMap serviceMap secretMap configMap.
Proof.
  intros Ht Hs Hc Hf.
  destruct (join_ok_keys b (types.ID <$> stacks)) as (Kt & Ks & Kc & Kf).
  rewrite Ht in Kt. rewrite Hs in Ks. rewrite Hc in Kc. rewrite Hf in Kf.
  simpl in Kt, Ks, Kc, Kf.
  destruct (Kt eq_refl) as (mt & -> & Dt). destruct (Ks eq_refl) as (ms & ? & -> & Ds & _).
  destruct (Kc eq_refl) as (mc & -> & Dc). destruct (Kf eq_refl) as (mf & -> & Df).
  simpl in *. apply Forall_forall. intros stack Hin.
  assert (types.ID stack ∈ (list_to_set (types.ID <$> stacks) : gset string)) as Hid.
  { apply elem_of_list_to_set, list_elem_of_fmap. by exists stack. }
  simpl. rewrite <- !elem_of_dom, Dt, Ds, Dc, Df. done.
Qed.

(** X5: the four panics of [getStackStatuses] on a stack ID missing from a
    joined map cannot happen: if the call panics at all, it is on the [nil]
    [ServicesStatus] map or the [nil] [Replicas] inside
    [populateStackStatus]. *)
Theorem getStackStatuses_panics_only_in_populate (b : SwarmResourceBackend)
    (stacks : list types.Stack) curentTasks msg :
  backend.getStackStatuses StackLabel b stacks curentTasks = Panics msg →
  msg = "assignment to entry in nil map"
  ∨ msg = "runtime error: invalid memory address or nil pointer dereference".
Proof.
  unfold backend.getStackStatuses. destruct stacks as [|stack0 rest] eqn:Hstacks; [done|].
  rewrite <- Hstacks.
  destruct (backend.getSwarmTasks _ _ _) as [taskMap [e|]] eqn:Ht; [done|].
  destruct (backend.getSwarmServices _ _ _) as [serviceMap [e|]] eqn:Hs; [done|].
  destruct (backend.getSwarmSecrets _ _ _) as [secretMap [e|]] eqn:Hc; [done|].
  destruct (backend.getSwarmConfigs _ _ _) as [configMap [e|]] eqn:Hf; [done|].
  destruct (backend.getNodeCount b) as [nodeCount [e|]]; [done|].
  apply stacksLoop_panics. by eapply joins_bind_all.
Qed.

(** X6: if every stack carries a non-[nil] [ServicesStatus] map and every
    service the backend lists under the stack filter has its replica count
    set when it is replicated, [getStackStatuses] does not panic. *)
Theorem getStackStatuses_safe (b : SwarmResourceBackend) (stacks : list types.Stack)
    curentTasks :
  Forall (λ stack, is_Some (types.ServicesStatus (types.Status stack))) stacks →
  Forall replicasSet
    (GetServices b (backend.stackLabelFilters StackLabel (types.ID <$> stacks))).1 →
  completes (backend.getStackStatuses StackLabel b stacks curentTasks).
Proof.
  intros Hmaps Hsafe. unfold backend.getStackStatuses.
  destruct stacks as [|stack0 rest] eqn:Hstacks; [done|]. rewrite <- Hstacks in *.
  destruct (backend.getSwarmTasks _ _ _) as [taskMap [e|]] eqn:Ht; [done|].
  destruct (backend.getSwarmServices _ _ _) as [serviceMap [e|]] eqn:Hs; [done|].
  destruct (backend.getSwarmSecrets _ _ _) as [secretMap [e|]] eqn:Hc; [done|].
  destruct (backend.getSwarmConfigs _ _ _) as [configMap [e|]] eqn:Hf; [done|].
  destruct (backend.getNodeCount b) as [nodeCount [e|]]; [done|].
  apply stacksLoop_completes; [by eapply joins_bind_all | done |].
  destruct (join_ok_keys b (types.ID <$> stacks)) as (_ & Ks & _).
  rewrite Hs in Ks. simpl in Ks.
  destruct (Ks eq_refl) as (ms & services & -> & _ & Hquery & Hsub).
  rewrite Hquery in Hsafe. simpl in *. intros stackID stackServices Hlook.
  apply Forall_forall. intros service Hin.
  eapply Forall_forall in Hsafe; [done|]. by eapply Hsub.
Qed.

(** X7: what [getStackStatuses] reports, for at least one stack, when a
    query fails: the empty list, and an error that names the step -- except
    that a failed config join is reported as a failure to get secrets. *)
Theorem getStackStatuses_errors (b : SwarmResourceBackend) (stacks : list types.Stack)
    curentTasks :
  stacks ≠ [] →
  let stackIDs := types.ID <$> stacks in
  let fails := λ (prefix err : string),
    backend.getStackStatuses StackLabel b stacks curentTasks
    = Returns ([], Some (prefix +:+ err), curentTasks) in
  (∀ err,
     (backend.getSwarmTasks StackLabel b stackIDs).2 = Some err →
     fails "unable to get swarm tasks: " err)
  ∧ (∀ err,
     (backend.getSwarmTasks StackLabel b stackIDs).2 = None →
     (backend.getSwarmServices StackLabel b stackIDs).2 = Some err →
     fails "unable to get swarm services: " err)
  ∧ (∀ err,
     (backend.getSwarmTasks StackLabel b stackIDs).2 = None →
     (backend.getSwarmServices StackLabel b stackIDs).2 = None →
     (backend.getSwarmSecrets StackLabel b stackIDs).2 = Some err →
     fails "unable to get swarm secrets: " err)
  ∧ (∀ err,
     (backend.getSwarmTasks StackLabel b stackIDs).2 = None →
     (backend.getSwarmServices StackLabel b stackIDs).2 = None →
     (backend.getSwarmSecrets StackLabel b stackIDs).2 = None →
     (backend.getSwarmConfigs StackLabel b stackIDs).2 = Some err →
     fails "unable to get swarm secrets: " err)
  ∧ (∀ nodes err,
     (backend.getSwarmTasks StackLabel b stackIDs).2 = None →
     (backend.getSwarmServices StackLabel b stackIDs).2 = None →
     (backend.getSwarmSecrets StackLabel b stackIDs).2 = None →
     (backend.getSwarmConfigs StackLabel b stackIDs).2 = None →
     GetNodes b (filters.NewArgs []) = (nodes, Some err) →
     fails "unable to get nodes: unable to list nodes: " err).
Proof.
  intros Hne stackIDs fails. subst stackIDs fails. cbv beta.
  unfold backend.getStackStatuses, backend.getNodeCount.
  destruct stacks as [|stack0 rest] eqn:Hstacks; [done|]. rewrite <- Hstacks.
  destruct (backend.getSwarmTasks _ _ _) as [taskMap [e1|]];
    destruct (backend.getSwarmServices _ _ _) as [serviceMap [e2|]];
    destruct (backend.getSwarmSecrets _ _ _) as [secretMap [e3|]];
    destruct (backend.getSwarmConfigs _ _ _) as [configMap [e4|]];
    simpl; repeat split; intros; simplify_eq; try done.
  match goal with H : GetNodes _ _ = _ |- _ => rewrite H end. reflexivity.
Qed.

End MoreJoinProperties.

(** ** The resource inventory and the status map *)

Section MoreStatusProperties.

(** A name among the names of a list belongs to a last element of that
    name. *)
Lemma last_with_name {R} (name : R → string) (resources : list R) (n : string) :
  n ∈ name <$> resources →
  ∃ before r after,
    resources = (before ++ r :: after)%list ∧ name r = n ∧ n ∉ name <$> after.
Proof.
  induction resources as [|r rest IH]; simpl; [by intros ?%elem_of_nil|].
  intros Hin. destruct (decide (n ∈ name <$> rest)) as [Hrest|Hrest].
  - destruct (IH Hrest) as (before & r' & after & -> & Hname & Hlast).
    by exists (r :: before), r', after.
  - apply elem_of_cons in Hin as [->|?]; [|done]. by exists [], r, rest.
Qed.

(** A map built by inserting one entry per resource, in order. *)
Lemma inventory_of {R V} (name : R → string) (entry : R → V) (resources : list R) :
  let res := foldl (λ res r, <[name r := entry r]> res) (∅ : gmap string V) resources in
  dom res = list_to_set (name <$> resources)
  ∧ ∀ before r after,
      resources = (before ++ r :: after)%list →
      name r ∉ name <$> after →
      res !! name r = Some (entry r).
Proof.
  simpl.
  assert (G : ∀ (acc : gmap string V),
             dom (foldl (λ res r, <[name r := entry r]> res) acc resources)
             = list_to_set (name <$> resources) ∪ dom acc
             ∧ (∀ n, n ∉ name <$> resources →
                  foldl (λ res r, <[name r := entry r]> res) acc resources !! n = acc !! n)
             ∧ ∀ before r after,
                 resources = (before ++ r :: after)%list →
                 name r ∉ name <$> after →
                 foldl (λ res r, <[name r := entry r]> res) acc resources !! name r
                 = Some (entry r)).
  { induction resources as [|r0 rest IH]; intros acc; simpl.
    - split; [by rewrite union_empty_l_L|]. split; [done|]. by intros [|??] ???.
    - destruct (IH (<[name r0 := entry r0]> acc)) as (Hdom & Hother & Hlast).
      split; [|split].
      + rewrite Hdom, dom_insert_L, union_assoc_L. f_equal. apply union_comm_L.
      + intros n Hn. apply not_elem_of_cons in Hn as [Hne Hn].
        rewrite (Hother n Hn). by rewrite lookup_insert_ne.
      + intros [|b before] r after Heq Hn; simplify_eq/=.
        * rewrite (Hother _ Hn). apply lookup_insert_eq.
        * by eapply Hlast. }
  destruct (G ∅) as (Hdom & _ & Hlast). split; [|done].
  by rewrite Hdom, dom_empty_L, union_empty_r_L.
Qed.

(** X8: each inventory map has exactly the resource names as keys, and
    under a name it holds the ID of the last resource of that name, with the
    kind of the inventory. *)
Theorem inventory_maps :
  (∀ services,
     dom (backend.stackServices services) = list_to_set (serviceName <$> services)
     ∧ ∀ before service after,
         services = (before ++ service :: after)%list →
         serviceName service ∉ serviceName <$> after →
         backend.stackServices services !! serviceName service
         = Some {| types.ResourceID := swarm.ID service;
                   types.Kind := types.KindSwarmService |})
  ∧ (∀ secrets,
     let name := λ secret, swarm.Name (swarm.SecretAnnotations (swarm.SecretSpec_ secret)) in
     dom (backend.stackSecrets secrets) = list_to_set (name <$> secrets)
     ∧ ∀ before secret after,
         secrets = (before ++ secret :: after)%list →
         name secret ∉ name <$> after →
         backend.stackSecrets secrets !! name secret
         = Some {| types.ResourceID := swarm.SecretID secret;
                   types.Kind := types.KindSwarmSecret |})
  ∧ (∀ configs,
     let name := λ config, swarm.Name (swarm.ConfigAnnotations (swarm.ConfigSpec_ config)) in
     dom (backend.stackConfigs configs) = list_to_set (name <$> configs)
     ∧ ∀ before config after,
         configs = (before ++ config :: after)%list →
         name config ∉ name <$> after →
         backend.stackConfigs configs !! name config
         = Some {| types.ResourceID := swarm.ConfigID config;
                   types.Kind := types.KindSwarmConfig |}).
Proof.
  split; [|split]; intros resources.
  - apply (inventory_of serviceName
             (λ service, {| types.ResourceID := swarm.ID service;
                            types.Kind := types.KindSwarmService |})).
  - apply (inventory_of
             (λ secret, swarm.Name (swarm.SecretAnnotations (swarm.SecretSpec_ secret)))
             (λ secret, {| types.ResourceID := swarm.SecretID secret;
                           types.Kind := types.KindSwarmSecret |})).
  - apply (inventory_of
             (λ config, swarm.Name (swarm.ConfigAnnotations (swarm.ConfigSpec_ config)))
             (λ config, {| types.ResourceID := swarm.ConfigID config;
                           types.Kind := types.KindSwarmConfig |})).
Qed.

(** X9: a call of [populateStackStatus] that returns keeps the stack's ID,
    replaces its resources by the three inventories, and changes the status
    map only under the names of the services: the keys afterwards are the
    old keys and the service names, and every other entry is untouched. *)
Theorem populateStackStatus_frame (stack stack' : types.Stack) tasks services secrets
    configs numNodes curentTasks err curentTasks' statuses :
  backend.populateStackStatus stack tasks services secrets configs numNodes curentTasks
  = Returns (stack', err, curentTasks') →
  types.ServicesStatus (types.Status stack) = Some statuses →
  err = None
  ∧ types.ID stack' = types.ID stack
  ∧ types.Resources stack'
    = {| types.Services := Some (backend.stackServices services);
         types.Secrets := Some (backend.stackSecrets secrets);
         types.Configs := Some (backend.stackConfigs configs) |}
  ∧ ∃ statuses',
      types.ServicesStatus (types.Status stack') = Some statuses'
      ∧ dom statuses' = dom statuses ∪ list_to_set (serviceName <$> services)
      ∧ ∀ name, name ∉ serviceName <$> services → statuses' !! name = statuses !! name.
Proof.
  intros Hpop Hmap.
  destruct (populateStackStatus_returns _ _ _ _ _ _ _ _ _ _ Hpop) as (-> & Hid & Hres).
  split; [done|]. split; [done|]. split; [done|].
  unfold backend.populateStackStatus in Hpop.
  destruct (backend.servicesLoop _ _ _ _ _) as [[stack1 c1]|] eqn:Hloop; [|done].
  injection Hpop as <- <-.
  eapply servicesLoop_returns in Hloop as (statuses' & Hmap' & Hother & Hrec); [|done].
  exists statuses'. split; [done|]. split; [|done].
  apply set_eq. intros name. rewrite elem_of_union, !elem_of_dom, elem_of_list_to_set.
  destruct (decide (name ∈ serviceName <$> services)) as [Hin|Hout].
  - split; [by right|]. intros _.
    destruct (last_with_name serviceName services name Hin)
      as (before & service & after & Hsplit & <- & Hlast).
    destruct (Hrec _ _ _ Hsplit Hlast) as (d & _ & ->). by eexists.
  - rewrite (Hother name Hout). split; [by left | by intros [?|?]].
Qed.

End MoreStatusProperties.

(** ** [StackLabelFilter] *)

(** X10: for a non-empty stack ID [StackLabelFilter] has one field, [label],
    whose only value is [<StackLabel>=<stackID>]; for the empty ID it has no
    field at all. *)
Theorem StackLabelFilter_fields (StackLabel stackID : string) :
  (stackID ≠ "" →
   filters.Len (interfaces.StackLabelFilter StackLabel stackID) = 1
   ∧ filters.Get (interfaces.StackLabelFilter StackLabel stackID) "label"
     = [StackLabel +:+ "=" +:+ stackID]
   ∧ ∀ field, field ≠ "label" →
       filters.Get (interfaces.StackLabelFilter StackLabel stackID) field = [])
  ∧ (stackID = "" →
     filters.Len (interfaces.StackLabelFilter StackLabel stackID) = 0
     ∧ ∀ field, filters.Get (interfaces.StackLabelFilter StackLabel stackID) field = []).
Proof.
  unfold interfaces.StackLabelFilter, filters.Len, filters.Get.
  split; intros Hid.
  - rewrite decide_False by done. rewrite NewArgs_singleton.
    split; [apply map_size_singleton|]. split.
    + rewrite lookup_singleton_eq. simpl. apply elements_singleton.
    + intros field Hfield. rewrite lookup_singleton_ne by done. simpl.
      apply elements_empty.
  - rewrite decide_True by done. rewrite NewArgs_nil.
    split; [apply map_size_empty|]. intros field. rewrite lookup_empty. simpl.
    apply elements_empty.
Qed.

(** ** The conversion and the methods that write to the store *)

Section MoreConversionProperties.

Context {ServiceNetworkConfig ConfigObjs SecretObjs NetworkObjs : Type}.
Context {Namespace SwarmServices SwarmConfigs SwarmSecrets NetworkCreates
         ExternalNetworks SubstContext Store : Type}.
Context `{!Zero SwarmServices, !Zero SwarmConfigs, !Zero SwarmSecrets,
          !Zero NetworkCreates}.

Abbreviation ServiceConfig :=
  (backend.ServiceConfig (ServiceNetworkConfig:=ServiceNetworkConfig)).
Abbreviation StackSpec :=
  (backend.StackSpec (ServiceNetworkConfig:=ServiceNetworkConfig)
     (ConfigObjs:=ConfigObjs) (SecretObjs:=SecretObjs) (NetworkObjs:=NetworkObjs)).

Variable DoSubstitution : SubstContext → StackSpec → StackSpec * error.
Variable NewNamespace : string → Namespace.
Variable convertServices :
  Namespace → StackSpec → SwarmResourceBackend → SwarmServices * error.
Variable convertConfigs : Namespace → ConfigObjs → SwarmConfigs * error.
Variable convertSecrets : Namespace → SecretObjs → SwarmSecrets * error.
Variable convertNetworks :
  Namespace → NetworkObjs → gset string → NetworkCreates * ExternalNetworks.
Variable OrchestratorSwarm : string.

Abbreviation convert :=
  (backend.convertToSwarmStackSpec DoSubstitution NewNamespace convertServices
     convertConfigs convertSecrets convertNetworks).
Abbreviation create :=
  (backend.CreateStack (Store:=Store) DoSubstitution NewNamespace convertServices
     convertConfigs convertSecrets convertNetworks OrchestratorSwarm).
Abbreviation update :=
  (backend.UpdateStack (Store:=Store) DoSubstitution NewNamespace convertServices
     convertConfigs convertSecrets convertNetworks).

Local Ltac run_pipeline :=
  unfold backend.convertToSwarmStackSpec, backend.call, mbind, backend.traced_bind,
    mret, backend.traced_ret.

(** X11: the conversion returns no error exactly when substitution and the
    three conversions of services, configs and secrets all return none --
    the network conversion cannot make it fail -- and then all five stages
    have run, the annotations are those of the spec as given, before
    substitution, and the rest comes from the stages; with an error, the
    spec returned is the zero value. *)
Theorem convert_succeeds_iff ctx b (spec : StackSpec) (log : list backend.stage) :
  let namespace := NewNamespace (backend.MetaName (backend.SpecMetadata spec)) in
  let substituted := (DoSubstitution ctx spec).1 in
  let staged :=
    (DoSubstitution ctx spec).2 = None
    ∧ (convertServices namespace substituted b).2 = None
    ∧ (convertConfigs namespace (backend.SpecConfigs substituted)).2 = None
    ∧ (convertSecrets namespace (backend.SpecSecrets substituted)).2 = None in
  ((convert ctx b spec log).1.2 = None ↔ staged)
  ∧ ((convert ctx b spec log).1.2 ≠ None → (convert ctx b spec log).1.1 = zero)
  ∧ (staged →
     convert ctx b spec log
     = ({| backend.Annotations :=
             {| swarm.Name := backend.MetaName (backend.SpecMetadata spec);
                swarm.Labels := backend.MetaLabels (backend.SpecMetadata spec) |};
           backend.SwarmServices_ := (convertServices namespace substituted b).1;
           backend.SwarmConfigs_ :=
             (convertConfigs namespace (backend.SpecConfigs substituted)).1;
           backend.SwarmSecrets_ :=
             (convertSecrets namespace (backend.SpecSecrets substituted)).1;
           backend.SwarmNetworks_ :=
             (convertNetworks namespace (backend.SpecNetworks substituted)
                (backend.getServicesDeclaredNetworks
                   (backend.SpecServices substituted))).1 |},
        None,
        (log ++ [backend.Substitution; backend.ServiceConversion;
                 backend.ConfigConversion; backend.SecretConversion;
                 backend.NetworkConversion])%list)).
Proof.
  simpl. run_pipeline.
  destruct (DoSubstitution ctx spec) as [substituted [e|]]; simpl;
    [split; [split; [done | by intros [? _]] | split; [done | by intros [? _]]]|].
  destruct (convertServices _ _ _) as [services [e|]]; simpl;
    [split; [split; [done | by intros (_ & ? & _)]
            | split; [done | by intros (_ & ? & _)]]|].
  destruct (convertConfigs _ _) as [configs [e|]]; simpl;
    [split; [split; [done | by intros (_ & _ & ? & _)]
            | split; [done | by intros (_ & _ & ? & _)]]|].
  destruct (convertSecrets _ _) as [secrets [e|]]; simpl;
    [split; [split; [done | by intros (_ & _ & _ & ?)]
            | split; [done | by intros (_ & _ & _ & ?)]]|].
  destruct (convertNetworks _ _ _) as [networkCreates external]. simpl.
  split; [done|]. split; [done|]. intros _. by rewrite <- !app_assoc.
Qed.

(** X12: the declared networks of two lists of services put together are
    the union of the declared networks of each, and the order of the
    services does not matter. *)
Theorem declared_networks_compose (serviceConfigs serviceConfigs' : list ServiceConfig) :
  backend.getServicesDeclaredNetworks (serviceConfigs ++ serviceConfigs')%list
  = backend.getServicesDeclaredNetworks serviceConfigs
    ∪ backend.getServicesDeclaredNetworks serviceConfigs'
  ∧ (serviceConfigs ≡ₚ serviceConfigs' →
     backend.getServicesDeclaredNetworks serviceConfigs
     = backend.getServicesDeclaredNetworks serviceConfigs').
Proof.
  rewrite !getServicesDeclaredNetworks_union. split.
  - by rewrite fmap_app, union_list_app_L.
  - intros Hperm. apply set_eq. intros network. rewrite !elem_of_union_list.
    split; intros (X & HX & Hnet); exists X; (split; [|done]).
    + by rewrite <- Hperm.
    + by rewrite Hperm.
Qed.

(** X13: [CreateStack] with an orchestrator other than swarm runs no stage
    and leaves the store alone; with a spec whose conversion fails it leaves
    the store alone too and reports the failure as a translation error; it
    never returns an ID together with an error; and so the store can only
    have changed when the orchestrator is swarm and the conversion
    succeeded. *)
Theorem CreateStack_guards (stackStore : backend.StackStore) ctx b
    (request : backend.StackCreate) (store : Store) (log : list backend.stage) :
  let result := create stackStore ctx b request store log in
  let converted := convert ctx b (backend.CreateSpec request) log in
  (backend.CreateOrchestrator request ≠ OrchestratorSwarm →
   result
   = (zero,
      Some ("invalid orchestrator type " +:+ backend.CreateOrchestrator request
            +:+ ". This backend only supports orchestrator type swarm"),
      store, log))
  ∧ (∀ err,
       backend.CreateOrchestrator request = OrchestratorSwarm →
       converted.1.2 = Some err →
       result
       = (zero, Some ("unable to translate swarm spec: " +:+ err), store, converted.2))
  ∧ (result.1.1.2 ≠ None → result.1.1.1 = zero)
  ∧ (result.1.2 ≠ store →
     backend.CreateOrchestrator request = OrchestratorSwarm ∧ converted.1.2 = None).
Proof.
  simpl. unfold backend.CreateStack.
  destruct (decide (backend.CreateOrchestrator request ≠ OrchestratorSwarm)) as [Hne|Heq].
  { split; [done|]. split; [by intros ? ?|]. split; [done|]. by intros ?. }
  apply dec_stable in Heq.
  destruct (convert ctx b (backend.CreateSpec request) log) as [[swarmSpec [e|]] log1];
    simpl.
  { split; [done|]. split; [by intros ? _ [= <-]|]. split; [done|]. by intros ?. }
  destruct (backend.StoreAddStack _ _ _ _) as [[id [e|]] store1]; simpl.
  - split; [done|]. split; [by intros ? _ ?|]. split; [done|]. by intros _.
  - split; [done|]. split; [by intros ? _ ?|]. split; [done|]. by intros _.
Qed.

(** X14: [UpdateStack] rejects a spec exactly when [CreateStack] for swarm
    rejects it as untranslatable, with the same error and after the same
    stages, and then the store is left alone; when the conversion succeeds,
    [UpdateStack] hands the converted spec to the store and returns the
    store's own error and state. *)
Theorem UpdateStack_converts_first (stackStore : backend.StackStore) ctx b
    (id : string) (spec : StackSpec) (version : N) (store : Store)
    (log : list backend.stage) :
  let converted := convert ctx b spec log in
  (∀ err,
     converted.1.2 = Some err →
     update stackStore ctx b id spec version store log
     = (Some ("unable to translate swarm spec: " +:+ err), store, converted.2)
     ∧ create stackStore ctx b
         {| backend.CreateOrchestrator := OrchestratorSwarm;
            backend.CreateSpec := spec |} store log
       = (zero, Some ("unable to translate swarm spec: " +:+ err), store, converted.2))
  ∧ (converted.1.2 = None →
     update stackStore ctx b id spec version store log
     = (backend.StoreUpdateStack stackStore id spec converted.1.1 version store,
        converted.2)).
Proof.
  simpl. unfold backend.UpdateStack, backend.CreateStack. simpl.
  rewrite decide_False by (by intros ?).
  destruct (convert ctx b spec log) as [[swarmSpec [e|]] log1]; simpl.
  - split; [by intros ? [= <-] | done].
  - split; [done|]. intros _. by destruct (backend.StoreUpdateStack _ _ _ _ _ _).
Qed.

End MoreConversionProperties.

(** ** The further properties on the sample cluster *)

Lemma join_errs_iff_unlabelled_sample :
  (backend.getSwarmTasks sample.StackLabel sample.inconsistent ["a"]).2
  = Some "internal error: found task with no stack label"
  ∧ (backend.getSwarmTasks sample.StackLabel sample.cluster ["a"]).2 = None.
Proof.
  split.
  - destruct (proj1 (join_errs_iff_unlabelled sample.StackLabel sample.inconsistent ["a"])
                [sample.running1; sample.unlabelled; sample.running2] eq_refl)
      as [Hiff [Hnone|Hsome]]; [|exact Hsome].
    apply Hiff in Hnone. apply Forall_cons in Hnone as [_ Hnone].
    apply Forall_cons in Hnone as [[stackID Hsome] _]. discriminate Hsome.
  - apply (proj1 (join_errs_iff_unlabelled sample.StackLabel sample.cluster ["a"])
             [sample.running1; sample.running2; sample.failed3; sample.stray] eq_refl).
    repeat constructor; eexists; vm_compute; reflexivity.
Defined.

Lemma join_files_by_label_sample :
  FiledByLabel sample.StackLabel backend.taskLabels ["a"; "b"]
    [sample.running1; sample.unlabelled; sample.running2]
    (backend.getSwarmTasks sample.StackLabel sample.inconsistent ["a"; "b"]).
Proof.
  apply (proj1 (join_files_by_label sample.StackLabel sample.inconsistent ["a"; "b"])).
  reflexivity.
Defined.

Lemma listings_agree_sample :
  backend_first.getSwarmTasks sample.StackLabel sample.cluster ["a"; "b"]
  = backend.getSwarmTasks sample.StackLabel sample.cluster ["a"; "b"].
Proof.
  apply (listings_agree sample.StackLabel sample.cluster ["a"; "b"]
           [sample.running1; sample.running2; sample.failed3; sample.stray] eq_refl).
  repeat constructor; eexists; vm_compute; reflexivity.
Defined.

(** A stack with a [nil] status map whose service the cluster lists. *)
Lemma getStackStatuses_panics_sample :
  backend.getStackStatuses sample.StackLabel sample.cluster [sample.stackNil] 0%Z
  = Panics "assignment to entry in nil map"
  ∧ ("assignment to entry in nil map" = "assignment to entry in nil map"
     ∨ "assignment to entry in nil map"
       = "runtime error: invalid memory address or nil pointer dereference").
Proof.
  split; [vm_compute; reflexivity|].
  apply (getStackStatuses_panics_only_in_populate sample.StackLabel sample.cluster
           [sample.stackNil] 0%Z).
  vm_compute. reflexivity.
Defined.

Lemma getStackStatuses_safe_sample :
  completes (backend.getStackStatuses sample.StackLabel sample.cluster
               [sample.stackA; sample.stackB] 0%Z).
Proof.
  apply getStackStatuses_safe.
  - repeat constructor; by eexists.
  - repeat constructor. intros replicated Hmode. vm_compute in Hmode.
    injection Hmode as <-. by eexists.
Defined.

Lemma getStackStatuses_errors_sample :
  backend.getStackStatuses sample.StackLabel sample_store.down [sample.stackA] 0%Z
  = Returns ([], Some "unable to get swarm tasks: unable to get tasks for stacks [a]: connection refused",
             0%Z).
Proof.
  apply (proj1 (getStackStatuses_errors sample.StackLabel sample_store.down
                  [sample.stackA] 0%Z ltac:(discriminate))
           "unable to get tasks for stacks [a]: connection refused").
  reflexivity.
Defined.

Lemma populateStackStatus_frame_sample :
  types.ID sample.populatedA = "a"
  ∧ ∃ statuses',
      types.ServicesStatus (types.Status sample.populatedA) = Some statuses'
      ∧ dom statuses' = ∅ ∪ list_to_set ["web"; "agent"].
Proof.
  destruct (populateStackStatus_frame sample.stackA sample.populatedA
              [sample.running1; sample.running2; sample.failed3]
              [sample.web; sample.agent] [] [] 5%N 0%Z None 2%Z ∅)
    as (_ & Hid & _ & statuses' & Hmap & Hdom & _).
  - vm_compute. reflexivity.
  - reflexivity.
  - split; [exact Hid|]. exists statuses'. split; [exact Hmap|].
    rewrite Hdom. by rewrite dom_empty_L.
Defined.

(** The two cases of the package's test. *)
Lemma StackLabelFilter_fields_sample :
  filters.Len (interfaces.StackLabelFilter sample.StackLabel "") = 0
  ∧ filters.Len (interfaces.StackLabelFilter sample.StackLabel "stackid") = 1
  ∧ filters.Get (interfaces.StackLabelFilter sample.StackLabel "stackid") "label"
    = ["com.docker.stacks.stack_id=stackid"].
Proof.
  destruct (StackLabelFilter_fields sample.StackLabel "") as [_ Hempty].
  destruct (StackLabelFilter_fields sample.StackLabel "stackid") as [Hone _].
  split; [apply Hempty; reflexivity|].
  destruct Hone as (Hlen & Hget & _); [discriminate|]. split; [exact Hlen | exact Hget].
Defined.

Lemma convert_succeeds_iff_sample :
  backend.convertToSwarmStackSpec sample.substitutes sample.namespaceOf
    sample.servicesConverted sample.namesConverted sample.namesConverted
    sample.networksConverted tt sample.idle sample.composeSpec []
  = ({| backend.Annotations := {| swarm.Name := "demo"; swarm.Labels := None |};
        backend.SwarmServices_ := ["demo_web"; "demo_db"];
        backend.SwarmConfigs_ := [];
        backend.SwarmSecrets_ := ["demo_token"];
        backend.SwarmNetworks_ := ["demo_backnet"; "demo_default"] |},
     None,
     [backend.Substitution; backend.ServiceConversion; backend.ConfigConversion;
      backend.SecretConversion; backend.NetworkConversion]).
Proof.
  destruct (convert_succeeds_iff sample.substitutes sample.namespaceOf
              sample.servicesConverted sample.namesConverted sample.namesConverted
              sample.networksConverted tt sample.idle sample.composeSpec [])
    as (_ & _ & Hout).
  rewrite Hout; [vm_compute; reflexivity|]. repeat split.
Defined.

(** Creating the demo stack for another orchestrator, creating it for
    swarm with a failing service conversion, and updating it likewise, all
    leave the store as it was. *)
Lemma CreateStack_guards_sample :
  backend.CreateStack sample.substitutes sample.namespaceOf sample.servicesConverted
    sample.namesConverted sample.namesConverted sample.networksConverted "swarm"
    sample_store.stackStore tt sample.idle (sample_store.createDemo "kubernetes")
    ["other"] []
  = (zero,
     Some "invalid orchestrator type kubernetes. This backend only supports orchestrator type swarm",
     ["other"], [])
  ∧ backend.CreateStack sample.substitutes sample.namespaceOf sample.servicesFail
      sample.namesConverted sample.namesConverted sample.networksConverted "swarm"
      sample_store.stackStore tt sample.idle (sample_store.createDemo "swarm")
      ["other"] []
    = (zero, Some "unable to translate swarm spec: failed to convert services : secret token not found",
       ["other"], [backend.Substitution; backend.ServiceConversion]).
Proof.
  split.
  - apply (proj1 (CreateStack_guards sample.substitutes sample.namespaceOf
                    sample.servicesConverted sample.namesConverted sample.namesConverted
                    sample.networksConverted "swarm" sample_store.stackStore tt
                    sample.idle (sample_store.createDemo "kubernetes") ["other"] [])).
    discriminate.
  - apply (proj1 (proj2 (CreateStack_guards sample.substitutes sample.namespaceOf
                    sample.servicesFail sample.namesConverted sample.namesConverted
                    sample.networksConverted "swarm" sample_store.stackStore tt
                    sample.idle (sample_store.createDemo "swarm") ["other"] []))
             "failed to convert services : secret token not found");
      reflexivity.
Defined.

Lemma UpdateStack_converts_first_sample :
  backend.UpdateStack sample.substitutes sample.namespaceOf sample.servicesFail
    sample.namesConverted sample.namesConverted sample.networksConverted
    sample_store.stackStore tt sample.idle "demo" sample.composeSpec 1%N ["demo"] []
  = (Some "unable to translate swarm spec: failed to convert services : secret token not found",
     ["demo"], [backend.Substitution; backend.ServiceConversion])
  ∧ backend.UpdateStack sample.substitutes sample.namespaceOf sample.servicesConverted
      sample.namesConverted sample.namesConverted sample.networksConverted
      sample_store.stackStore tt sample.idle "missing" sample.composeSpec 1%N ["demo"] []
    = (Some "stack not found", ["demo"],
       [backend.Substitution; backend.ServiceConversion; backend.ConfigConversion;
        backend.SecretConversion; backend.NetworkConversion]).
Proof.
  split.
  - apply (proj1 (UpdateStack_converts_first sample.substitutes sample.namespaceOf
                    sample.servicesFail sample.namesConverted sample.namesConverted
                    sample.networksConverted "swarm" sample_store.stackStore tt
                    sample.idle "demo" sample.composeSpec 1%N ["demo"] [])
             "failed to convert services : secret token not found").
    reflexivity.
  - rewrite (proj2 (UpdateStack_converts_first sample.substitutes sample.namespaceOf
                      sample.servicesConverted sample.namesConverted
                      sample.namesConverted sample.networksConverted "swarm"
                      sample_store.stackStore tt sample.idle "missing"
                      sample.composeSpec 1%N ["demo"] []) eq_refl).
    vm_compute. reflexivity.
Defined.
